(** * Deep-research workflow: supervisor, worker, scoping and search adapter

    A shallow embedding of the control logic of
    [deep_research_from_scratch] (LangGraph nodes written in Python) and the
    properties its specification states about it.

    Conventions of the embedding.
    - A LangGraph state is a record; a key that the code reads with
      [state.get(key, default)] is an [option] field, a channel with a
      list reducer is a list.
    - The [add_messages] and [operator.add] reducers append the update to
      the channel (message ids are taken to be fresh).
    - A Python call that may raise returns [option]: [None] is the raised
      exception.
    - The language model, the worker sub-graph seen from the supervisor, the
      search client and the prompt templates of [prompts.py] are parameters
      of the sections below. *)

From Stdlib Require Import ZArith Lia.
From stdpp Require Import base option list strings gmap pretty.

Open Scope string_scope.
Open Scope list_scope.
Open Scope Z_scope.

(** ** Strings *)

Module Str.

(** One line feed, Python's ["\n"]. *)
Definition newline : string := String (Ascii.ascii_of_nat 10) "".

(** [sep.join(parts)]. *)
Fixpoint join (sep : string) (parts : list string) : string :=
  match parts with
  | [] => ""
  | [p] => p
  | p :: rest => p +:+ sep +:+ join sep rest
  end.

(** [s * n] for a string [s]. *)
Fixpoint repeat (s : string) (n : nat) : string :=
  match n with
  | O => ""
  | S n' => s +:+ repeat s n'
  end.

(** Python truthiness of a string. *)
Definition truthy (s : string) : bool :=
  match s with
  | "" => false
  | _ => true
  end.

End Str.

(** ** Messages and tool calls ([langchain_core.messages]) *)

Record ToolCall := mkToolCall {
  tc_name : string;
  tc_args : gmap string string;
  tc_id : string
}.

Inductive Message :=
| SystemMessage (content : string)
| HumanMessage (content : string)
| AIMessage (content : string) (calls : list ToolCall)
| ToolMessage (content : string) (name : string) (tool_call_id : string).

Inductive MessageType := TSystem | THuman | TAi | TTool.

Global Instance MessageType_eq_dec : EqDecision MessageType.
Proof. solve_decision. Defined.

Definition msg_type (m : Message) : MessageType :=
  match m with
  | SystemMessage _ => TSystem
  | HumanMessage _ => THuman
  | AIMessage _ _ => TAi
  | ToolMessage _ _ _ => TTool
  end.

Definition msg_content (m : Message) : string :=
  match m with
  | SystemMessage c | HumanMessage c | AIMessage c _ | ToolMessage c _ _ => c
  end.

(** [m.tool_calls]: only an assistant message has the attribute; on any other
    message the attribute access raises. *)
Definition tool_calls (m : Message) : option (list ToolCall) :=
  match m with
  | AIMessage _ calls => Some calls
  | _ => None
  end.

(** What a chat model returns: always an assistant message. *)
Record AIResponse := mkAIResponse {
  ai_content : string;
  ai_tool_calls : list ToolCall
}.

Definition ai_message (r : AIResponse) : Message :=
  AIMessage (ai_content r) (ai_tool_calls r).

(** [m.tool_call_id], an attribute of tool messages only. *)
Definition msg_tool_call_id (m : Message) : option string :=
  match m with
  | ToolMessage _ _ id => Some id
  | _ => None
  end.

(** [filter_messages(messages, include_types=types)]. *)
Definition filter_messages (messages : list Message) (include_types : list MessageType)
  : list Message :=
  filter (λ m, msg_type m ∈ include_types) messages.

(** [messages[-1]]: raises on the empty list. *)
Definition last_message (messages : list Message) : option Message := last messages.

(** ** Reflection tool ([utils.think_tool]) *)

Definition think_tool_prefix : string := "성찰이 기록되었습니다: ".

(** [think_tool.invoke(args)]: the argument dictionary must carry
    [reflection]; without it the validation of the arguments raises. *)
Definition think_tool (args : gmap string string) : option string :=
  reflection ← args !! "reflection";
  Some (think_tool_prefix +:+ reflection).


(** ** Joining concurrent coroutines ([asyncio.gather]) *)

Module Asyncio.
Section Gather.
Context {A B : Type}.

(** Awaiting one coroutine: its result, or [None] when it raises. *)
Variable run : A → option B.

(** There is one slot per awaitable, in the order the awaitables were
    passed; a slot is empty until its coroutine has completed. The
    coroutine at position [i] completes and stores its outcome in its own
    slot. *)
Definition complete (coros : list A) (slots : list (option (option B))) (i : nat)
  : list (option (option B)) :=
  match coros !! i with
  | Some c => <[i := Some (run c)]> slots
  | None => slots
  end.

(** The join reads the slots in position order; an exception of any
    coroutine is raised by the join. *)
Definition join_slots (slots : list (option (option B))) : option (list B) :=
  mapM (λ s, s ≫= id) slots.

(** [await asyncio.gather] over [coros] when the event loop completes the
    coroutines in [completion_order]; the join waits for every
    coroutine, so the ones the order leaves out complete before it
    returns. *)
Definition gather (coros : list A) (completion_order : list nat) : option (list B) :=
  let n := length coros in
  join_slots (foldl (complete coros) (replicate n None) (completion_order ++ seq 0 n)).

End Gather.
End Asyncio.

(** ** Supervisor ([multi_agent_supervisor.py]) *)

Module Supervisor.

(** [SupervisorState]. *)
Record SupervisorState := mkState {
  supervisor_messages : list Message;
  research_brief : option string;
  notes : list string;
  research_iterations : option Z;
  raw_notes : list string
}.

(** The keys a node may write. *)
Record Update := mkUpdate {
  u_supervisor_messages : option (list Message);
  u_research_iterations : option Z;
  u_notes : option (list string);
  u_research_brief : option string;
  u_raw_notes : option (list string)
}.

Inductive Node := supervisor_node | supervisor_tools_node | END.

Global Instance Node_eq_dec : EqDecision Node.
Proof. solve_decision. Defined.

(** [Command(goto=..., update=...)]. *)
Record Command := mkCommand { goto : Node; update : Update }.

(** The graph writes an update through the reducers of the channels:
    [add_messages] and [operator.add] append, the other keys are
    overwritten. *)
Definition apply_update (state : SupervisorState) (u : Update) : SupervisorState :=
  {| supervisor_messages := supervisor_messages state ++ default [] (u_supervisor_messages u);
     research_brief := from_option Some (research_brief state) (u_research_brief u);
     notes := notes state ++ default [] (u_notes u);
     research_iterations :=
       from_option Some (research_iterations state) (u_research_iterations u);
     raw_notes := raw_notes state ++ default [] (u_raw_notes u) |}.

(** What a worker is started with, and what it hands back (the keys of
    [ResearcherOutputState] the supervisor reads with [result.get]). *)
Record ResearcherInput := mkInput {
  in_researcher_messages : list Message;
  in_research_topic : string
}.

Record ResearcherResult := mkResult {
  compressed_research : option string;
  res_raw_notes : option (list string)
}.

Definition max_researcher_iterations : Z := 6.
Definition max_concurrent_researchers : Z := 3.

(** [state.get("research_iterations", 0)]. *)
Definition round_counter (state : SupervisorState) : Z :=
  default 0 (research_iterations state).

(** The raw-note blob the supervisor keeps of one worker:
    ["\n".join(result.get("raw_notes", []))]. *)
Definition raw_note_blob (result : ResearcherResult) : string :=
  Str.join Str.newline (default [] (res_raw_notes result)).

(** [get_notes_from_tool_calls]. *)
Definition get_notes_from_tool_calls (messages : list Message) : list string :=
  msg_content <$> filter_messages messages [TTool].

Definition researcher_input (tool_call : ToolCall) : option ResearcherInput :=
  topic ← tc_args tool_call !! "research_topic";
  Some {| in_researcher_messages := [HumanMessage topic];
          in_research_topic := topic |}.

Definition research_tool_message (result : ResearcherResult) (tool_call : ToolCall)
  : Message :=
  ToolMessage
    (default "Error synthesizing research report" (compressed_research result))
    (tc_name tool_call) (tc_id tool_call).

Definition think_tool_message (tool_call : ToolCall) : option Message :=
  observation ← think_tool (tc_args tool_call);
  Some (ToolMessage observation (tc_name tool_call) (tc_id tool_call)).

Definition is_named (name : string) (tool_call : ToolCall) : bool :=
  bool_decide (tc_name tool_call = name).

(** The two partitions [supervisor_tools] takes of the tool calls. *)
Definition think_tool_calls (calls : list ToolCall) : list ToolCall :=
  filter (λ tool_call, is_named "think_tool" tool_call) calls.

Definition conduct_research_calls (calls : list ToolCall) : list ToolCall :=
  filter (λ tool_call, is_named "ConductResearch" tool_call) calls.

Section Nodes.

(** [get_today_str()] and [lead_researcher_prompt.format(...)]. *)
Variable today : string.
Variable lead_researcher_prompt : string → Z → Z → string.

(** [supervisor_model_with_tools.ainvoke]: the assistant message, or
    [None] when the call raises. *)
Variable supervisor_model_with_tools : list Message → option AIResponse.

(** [researcher_agent.ainvoke]: the worker's output, or [None] when
    the worker raises. *)
Variable researcher_agent : ResearcherInput → option ResearcherResult.

Definition supervisor_prompt (state : SupervisorState) : list Message :=
  SystemMessage
    (lead_researcher_prompt today max_concurrent_researchers max_researcher_iterations)
  :: supervisor_messages state.

(** The node [supervisor]. *)
Definition supervisor (state : SupervisorState) : option Command :=
  response ← supervisor_model_with_tools (supervisor_prompt state);
  Some {| goto := supervisor_tools_node;
          update := {| u_supervisor_messages := Some [ai_message response];
                       u_research_iterations := Some (round_counter state + 1);
                       u_notes := None;
                       u_research_brief := None;
                       u_raw_notes := None |} |}.

(** Starting one worker on a delegation call and awaiting it. *)
Definition delegate (tool_call : ToolCall) : option ResearcherResult :=
  researcher_input tool_call ≫= researcher_agent.

(** The body of the [try] block of [supervisor_tools]: the tool
    messages and the raw notes of the step, or [None] when anything in
    it raises. [completion_order] is the order in which the event loop
    completes the workers of this step. *)
Definition execute_tool_calls (completion_order : list nat) (calls : list ToolCall)
  : option (list Message * list string) :=
  tool_messages ← mapM think_tool_message (think_tool_calls calls);
  match conduct_research_calls calls with
  | [] => Some (tool_messages, [])
  | _ =>
      coros ← mapM researcher_input (conduct_research_calls calls);
      tool_results ← Asyncio.gather researcher_agent coros completion_order;
      let research_tool_messages :=
        zip_with research_tool_message tool_results (conduct_research_calls calls) in
      let all_raw_notes := raw_note_blob <$> tool_results in
      Some (tool_messages ++ research_tool_messages, all_raw_notes)
  end.

(** The update of the terminal transition. *)
Definition end_command (state : SupervisorState) : Command :=
  {| goto := END;
     update := {| u_supervisor_messages := None;
                  u_research_iterations := None;
                  u_notes := Some (get_notes_from_tool_calls (supervisor_messages state));
                  u_research_brief := Some (default "" (research_brief state));
                  u_raw_notes := None |} |}.

Definition continue_command (tool_messages : list Message) (all_raw_notes : list string)
  : Command :=
  {| goto := supervisor_node;
     update := {| u_supervisor_messages := Some tool_messages;
                  u_research_iterations := None;
                  u_notes := None;
                  u_research_brief := None;
                  u_raw_notes := Some all_raw_notes |} |}.

Definition exceeded_iterations (state : SupervisorState) : bool :=
  bool_decide (max_researcher_iterations ≤ round_counter state).

Definition no_tool_calls (calls : list ToolCall) : bool :=
  match calls with [] => true | _ => false end.

Definition research_complete (calls : list ToolCall) : bool :=
  existsb (is_named "ResearchComplete") calls.

(** The node [supervisor_tools]. [None] is an exception that leaves the
    node: the transcript is empty or its last message is not an
    assistant message. *)
Definition supervisor_tools (completion_order : list nat) (state : SupervisorState)
  : option Command :=
  most_recent_message ← last_message (supervisor_messages state);
  calls ← tool_calls most_recent_message;
  if exceeded_iterations state || no_tool_calls calls || research_complete calls
  then Some (end_command state)
  else
    match execute_tool_calls completion_order calls with
    | None => Some (end_command state)
    | Some (tool_messages, all_raw_notes) =>
        Some (continue_command tool_messages all_raw_notes)
    end.

(** *** Running the graph [START → supervisor ⇄ supervisor_tools → END] *)

Inductive Outcome :=
| Done (state : SupervisorState)
| Raised
| OutOfFuel.

(** [schedule k] is the completion order of the workers in the step
    taken with [k] units of fuel left. *)
Fixpoint run_graph (schedule : nat → list nat) (fuel : nat) (node : Node)
  (state : SupervisorState) : Outcome :=
  match node with
  | END => Done state
  | _ =>
      match fuel with
      | O => OutOfFuel
      | S fuel' =>
          let command :=
            match node with
            | supervisor_node => supervisor state
            | _ => supervisor_tools (schedule fuel') state
            end in
          match command with
          | None => Raised
          | Some c => run_graph schedule fuel' (goto c) (apply_update state (update c))
          end
      end
  end.

Definition supervisor_agent (schedule : nat → list nat) (fuel : nat)
  (state : SupervisorState) : Outcome :=
  run_graph schedule fuel supervisor_node state.

End Nodes.
End Supervisor.

(** ** Search adapter ([utils.py]) *)

Module Search.

(** One document of a search response, and the response. *)
Record SearchResult := mkSearchResult {
  url : string;
  title : string;
  content : string;
  raw_content : option string
}.

Record SearchResponse := mkSearchResponse { results : list SearchResult }.

Inductive Topic := general | news | finance.

(** The structured output [Summary] of the summarisation model. *)
Record Summary := mkSummary { summary : string; key_excerpts : string }.

(** An entry of [summarized_results]. *)
Record SummarizedResult := mkSummarized { s_title : string; s_content : string }.

(** A Python [dict] keyed by URL: the items in insertion order. *)
Definition Dict (V : Type) : Type := list (string * V).

Definition dict_contains {V} (key : string) (d : Dict V) : bool :=
  bool_decide (key ∈ d.*1).

Definition no_results_message : string :=
  "유효한 검색 결과를 찾을 수 없습니다. 다른 검색 쿼리를 시도하거나 다른 검색 API를 사용해주세요.".

(** [deduplicate_search_results]: the first document of a URL is kept. *)
Definition deduplicate_search_results (search_results : list SearchResponse)
  : Dict SearchResult :=
  foldl (λ unique_results result,
           if dict_contains (url result) unique_results
           then unique_results
           else unique_results ++ [(url result, result)])
        [] (concat (results <$> search_results)).

(** The text one source contributes to the formatted output; [i] counts
    from one. *)
Definition format_source (i : nat) (source_url : string) (result : SummarizedResult)
  : string :=
  Str.newline +:+ Str.newline +:+ "--- 소스 " +:+ pretty i +:+ ": " +:+ s_title result
    +:+ " ---" +:+ Str.newline
  +:+ "URL: " +:+ source_url +:+ Str.newline +:+ Str.newline
  +:+ "요약:" +:+ Str.newline +:+ s_content result +:+ Str.newline +:+ Str.newline
  +:+ Str.repeat "-" 80 +:+ Str.newline.

(** [format_search_output]. *)
Definition format_search_output (summarized_results : Dict SummarizedResult) : string :=
  match summarized_results with
  | [] => no_results_message
  | _ =>
      foldl (λ formatted_output '(i, (source_url, result)),
               formatted_output +:+ format_source i source_url result)
            ("검색 결과: " +:+ Str.newline +:+ Str.newline)
            (zip (seq 1 (length summarized_results)) summarized_results)
  end.

Section Gateway.

(** [get_today_str()] and [summarize_webpage_prompt.format(...)]. *)
Variable today : string.
Variable summarize_webpage_prompt : string → string → string.

(** [tavily_client.search(query, max_results, include_raw_content, topic)]:
    the response, or [None] when the client raises. *)
Variable tavily_client_search : string → Z → bool → Topic → option SearchResponse.

(** The summarisation model with structured output. *)
Variable summarization_model : list Message → option Summary.

(** [tavily_search_multiple]. *)
Definition tavily_search_multiple (search_queries : list string) (max_results : Z)
  (topic : Topic) (include_raw_content : bool) : option (list SearchResponse) :=
  mapM (λ query, tavily_client_search query max_results include_raw_content topic)
       search_queries.

(** [summarize_webpage_content]: on any failure of the model the page
    itself is returned, cut to its first 1000 characters. *)
Definition summarize_webpage_content (webpage_content : string) : string :=
  match summarization_model
          [HumanMessage (summarize_webpage_prompt webpage_content today)] with
  | Some s =>
      "<summary>" +:+ Str.newline +:+ summary s +:+ Str.newline +:+ "</summary>"
      +:+ Str.newline +:+ Str.newline
      +:+ "<key_excerpts>" +:+ Str.newline +:+ key_excerpts s +:+ Str.newline
      +:+ "</key_excerpts>"
  | None =>
      if bool_decide (1000 < String.length webpage_content)%nat
      then String.substring 0 1000 webpage_content +:+ "..."
      else webpage_content
  end.

(** [process_search_results]. *)
Definition process_search_results (unique_results : Dict SearchResult)
  : Dict SummarizedResult :=
  (λ '(source_url, result),
     let content :=
       match raw_content result with
       | Some raw => if Str.truthy raw then summarize_webpage_content raw else content result
       | None => content result
       end in
     (source_url, {| s_title := title result; s_content := content |}))
  <$> unique_results.

(** The tool [tavily_search]. *)
Definition tavily_search (query : string) (max_results : Z) (topic : Topic)
  : option string :=
  search_results ← tavily_search_multiple [query] max_results topic true;
  let unique_results := deduplicate_search_results search_results in
  let summarized_results := process_search_results unique_results in
  Some (format_search_output summarized_results).

End Gateway.
End Search.

(** ** Worker agent ([research_agent.py], [state_research.py]) *)

Module Researcher.

(** [ResearcherState]. *)
Record ResearcherState := mkState {
  researcher_messages : list Message;
  tool_call_iterations : option Z;
  research_topic : option string;
  compressed_research : option string;
  raw_notes : list string
}.

(** The keys a node may write. *)
Record Update := mkUpdate {
  u_researcher_messages : option (list Message);
  u_tool_call_iterations : option Z;
  u_compressed_research : option string;
  u_raw_notes : option (list string)
}.

Inductive Node := llm_call_node | tool_node_node | compress_research_node | END.

Global Instance Node_eq_dec : EqDecision Node.
Proof. solve_decision. Defined.

Definition apply_update (state : ResearcherState) (u : Update) : ResearcherState :=
  {| researcher_messages := researcher_messages state ++ default [] (u_researcher_messages u);
     tool_call_iterations :=
       from_option Some (tool_call_iterations state) (u_tool_call_iterations u);
     research_topic := research_topic state;
     compressed_research :=
       from_option Some (compressed_research state) (u_compressed_research u);
     raw_notes := raw_notes state ++ default [] (u_raw_notes u) |}.

Definition messages_update (messages : list Message) : Update :=
  {| u_researcher_messages := Some messages;
     u_tool_call_iterations := None;
     u_compressed_research := None;
     u_raw_notes := None |}.

(** The concatenation [compress_research] stores as its only raw note. *)
Definition raw_notes_blob (messages : list Message) : string :=
  Str.join Str.newline (msg_content <$> filter_messages messages [TTool; TAi]).

(** A language model that asks for one more reflection whatever it is
    shown. *)
Definition reflecting_call : ToolCall :=
  {| tc_name := "think_tool";
     tc_args := {[ "reflection" := "more evidence is needed" ]};
     tc_id := "call_reflect" |}.

Definition reflecting_model (messages : list Message) : option AIResponse :=
  Some {| ai_content := ""; ai_tool_calls := [reflecting_call] |}.

(** Where a worker driven by that model stands: about to think, or about
    to act on the reflection the model has just asked for. *)
Definition in_loop (node : Node) (state : ResearcherState) : Prop :=
  node = llm_call_node ∨
  (node = tool_node_node ∧
   last_message (researcher_messages state) = Some (AIMessage "" [reflecting_call])).

(** How often [tool_node] occurs in a trace. *)
Definition tool_iterations (nodes : list Node) : nat :=
  length (filter (λ node, node = tool_node_node) nodes).

Section Nodes.

(** [get_today_str()] and the templates of [prompts.py]. *)
Variable today : string.
Variable research_agent_prompt : string.
Variable compress_research_system_prompt : string → string.
Variable compress_research_human_message : string.

(** The two models, and the search tool with its injected arguments. *)
Variable model_with_tools : list Message → option AIResponse.
Variable compress_model : list Message → option AIResponse.
Variable tavily_search : string → Z → Search.Topic → option string.

(** [tools_by_name[name]] for [tools = [tavily_search, think_tool]];
    [None] is the [KeyError] of an unknown name. The search tool is
    invoked with the defaults of its injected arguments. *)
Definition tools_by_name (name : string) : option (gmap string string → option string) :=
  if decide (name = "tavily_search") then
    Some (λ args, query ← args !! "query"; tavily_search query 3 Search.general)
  else if decide (name = "think_tool") then Some think_tool
  else None.

(** The node [llm_call]. *)
Definition llm_call (state : ResearcherState) : option Update :=
  response ← model_with_tools (SystemMessage research_agent_prompt :: researcher_messages state);
  Some (messages_update [ai_message response]).

(** The node [tool_node]. *)
Definition tool_node (state : ResearcherState) : option Update :=
  last ← last_message (researcher_messages state);
  calls ← tool_calls last;
  observations ←
    mapM (λ tool_call, tool ← tools_by_name (tc_name tool_call); tool (tc_args tool_call))
         calls;
  let tool_outputs :=
    zip_with (λ observation tool_call,
                ToolMessage observation (tc_name tool_call) (tc_id tool_call))
             observations calls in
  Some (messages_update tool_outputs).

(** The node [compress_research]. *)
Definition compress_research (state : ResearcherState) : option Update :=
  response ←
    compress_model
      ([SystemMessage (compress_research_system_prompt today)]
         ++ researcher_messages state
         ++ [HumanMessage compress_research_human_message]);
  Some {| u_researcher_messages := None;
          u_tool_call_iterations := None;
          u_compressed_research := Some (ai_content response);
          u_raw_notes := Some [raw_notes_blob (researcher_messages state)] |}.

(** The routing function [should_continue]. *)
Definition should_continue (state : ResearcherState) : option Node :=
  last ← last_message (researcher_messages state);
  calls ← tool_calls last;
  Some (match calls with
        | [] => compress_research_node
        | _ => tool_node_node
        end).

(** One node of the compiled graph: [llm_call] is followed by the
    conditional edge, [tool_node] returns to [llm_call],
    [compress_research] leads to the end. [None] is a raised exception. *)
Definition step (node : Node) (state : ResearcherState) : option (Node * ResearcherState) :=
  match node with
  | llm_call_node =>
      u ← llm_call state;
      let state' := apply_update state u in
      next ← should_continue state';
      Some (next, state')
  | tool_node_node =>
      u ← tool_node state;
      Some (llm_call_node, apply_update state u)
  | compress_research_node =>
      u ← compress_research state;
      Some (END, apply_update state u)
  | END => Some (END, state)
  end.

Inductive Outcome :=
| Done (state : ResearcherState)
| Raised
| OutOfFuel.

Fixpoint run_graph (fuel : nat) (node : Node) (state : ResearcherState) : Outcome :=
  match node with
  | END => Done state
  | _ =>
      match fuel with
      | O => OutOfFuel
      | S fuel' =>
          match step node state with
          | None => Raised
          | Some (next, state') => run_graph fuel' next state'
          end
      end
  end.

(** The nodes executed within [fuel] steps, in order. *)
Fixpoint trace (fuel : nat) (node : Node) (state : ResearcherState) : list Node :=
  match node with
  | END => []
  | _ =>
      match fuel with
      | O => []
      | S fuel' =>
          node :: match step node state with
                  | None => []
                  | Some (next, state') => trace fuel' next state'
                  end
      end
  end.

(** The state reached after [fuel] steps, when no node has raised. *)
Fixpoint state_after (fuel : nat) (node : Node) (state : ResearcherState)
  : option (Node * ResearcherState) :=
  match fuel with
  | O => Some (node, state)
  | S fuel' =>
      match step node state with
      | None => None
      | Some (next, state') => state_after fuel' next state'
      end
  end.

(** The state the supervisor starts a worker in. *)
Definition initial_state (input : Supervisor.ResearcherInput) : ResearcherState :=
  {| researcher_messages := Supervisor.in_researcher_messages input;
     tool_call_iterations := None;
     research_topic := Some (Supervisor.in_research_topic input);
     compressed_research := None;
     raw_notes := [] |}.

(** [researcher_agent.ainvoke(input)], run with [fuel] steps: the keys of
    the output schema the supervisor reads. A run that raises or has not
    ended within [fuel] steps hands nothing back. *)
Definition researcher_agent (fuel : nat) (input : Supervisor.ResearcherInput)
  : option Supervisor.ResearcherResult :=
  match run_graph fuel llm_call_node (initial_state input) with
  | Done state =>
      Some {| Supervisor.compressed_research := compressed_research state;
              Supervisor.res_raw_notes := Some (raw_notes state) |}
  | _ => None
  end.

End Nodes.
End Researcher.

(** ** Scoping stage ([research_agent_scope.py], [state_scope.py]) *)

Module Scope.

(** [AgentState]. *)
Record AgentState := mkState {
  messages : list Message;
  research_brief : option string;
  supervisor_messages : list Message;
  raw_notes : list string;
  notes : list string;
  final_report : option string
}.

(** The structured outputs. *)
Record ClarifyWithUser := mkClarify {
  need_clarification : bool;
  question : string;
  verification : string
}.

Record ResearchQuestion := mkResearchQuestion { rq_research_brief : string }.

Record Update := mkUpdate {
  u_messages : option (list Message);
  u_research_brief : option string;
  u_supervisor_messages : option (list Message)
}.

Inductive Node := clarify_with_user_node | write_research_brief_node.

(** The targets [clarify_with_user] may name:
    [Literal["write_research_brief", "__end__"]]. *)
Inductive Goto := goto_write_research_brief | goto_end.

Record Command := mkCommand { goto : Goto; update : Update }.

Definition apply_update (state : AgentState) (u : Update) : AgentState :=
  {| messages := messages state ++ default [] (u_messages u);
     research_brief := from_option Some (research_brief state) (u_research_brief u);
     supervisor_messages := supervisor_messages state ++ default [] (u_supervisor_messages u);
     raw_notes := raw_notes state;
     notes := notes state;
     final_report := final_report state |}.

Section Nodes.

(** [get_today_str()], [get_buffer_string] and the templates of
    [prompts.py], each formatted with the transcript and the date. *)
Variable today : string.
Variable get_buffer_string : list Message → string.
Variable clarify_with_user_instructions : string → string → string.
Variable transform_messages_into_research_topic_prompt : string → string → string.

(** [model.with_structured_output(schema).invoke] for the two schemas. *)
Variable clarify_model : list Message → option ClarifyWithUser.
Variable brief_model : list Message → option ResearchQuestion.

(** The node [clarify_with_user]. *)
Definition clarify_with_user (state : AgentState) : option Command :=
  response ←
    clarify_model
      [HumanMessage (clarify_with_user_instructions (get_buffer_string (messages state)) today)];
  Some (if need_clarification response
        then {| goto := goto_end;
                update := {| u_messages := Some [AIMessage (question response) []];
                             u_research_brief := None;
                             u_supervisor_messages := None |} |}
        else {| goto := goto_write_research_brief;
                update := {| u_messages := Some [AIMessage (verification response) []];
                             u_research_brief := None;
                             u_supervisor_messages := None |} |}).

(** The node [write_research_brief]. *)
Definition write_research_brief (state : AgentState) : option Update :=
  response ←
    brief_model
      [HumanMessage
         (transform_messages_into_research_topic_prompt
            (get_buffer_string (messages state)) today)];
  Some {| u_messages := None;
          u_research_brief := Some (rq_research_brief response);
          u_supervisor_messages :=
            Some [HumanMessage (rq_research_brief response +:+ ".")] |}.

(** The compiled graph [scope_research]: the nodes it executed, in order,
    and the final state ([None] when a node raised). *)
Definition scope_research (state : AgentState) : list Node * option AgentState :=
  match clarify_with_user state with
  | None => ([clarify_with_user_node], None)
  | Some command =>
      let state' := apply_update state (update command) in
      match goto command with
      | goto_end => ([clarify_with_user_node], Some state')
      | goto_write_research_brief =>
          ([clarify_with_user_node; write_research_brief_node],
           apply_update state' <$> write_research_brief state')
      end
  end.

End Nodes.

(** The keys [AgentState] shares with [SupervisorState] are what the
    supervisor sub-graph of [research_agent_full.py] is entered with. *)
Definition supervisor_input (state : AgentState) : Supervisor.SupervisorState :=
  {| Supervisor.supervisor_messages := supervisor_messages state;
     Supervisor.research_brief := research_brief state;
     Supervisor.notes := notes state;
     Supervisor.research_iterations := None;
     Supervisor.raw_notes := raw_notes state |}.

End Scope.

(** ** Concrete collaborators and states *)

Module Scenario.
Import Supervisor.

Definition today : string := "Wed Nov 4, 2026".

Definition lead_researcher_prompt (date : string) (max_units max_iterations : Z) : string :=
  "lead researcher: " +:+ date.

Definition conduct (id topic : string) : ToolCall :=
  {| tc_name := "ConductResearch";
     tc_args := {[ "research_topic" := topic ]};
     tc_id := id |}.

Definition reflect (id reflection : string) : ToolCall :=
  {| tc_name := "think_tool";
     tc_args := {[ "reflection" := reflection ]};
     tc_id := id |}.

Definition call_a : ToolCall := conduct "A" "topic A".
Definition call_b : ToolCall := conduct "B" "topic B".
Definition call_c : ToolCall := conduct "C" "topic C".

(** A worker that answers from its topic. *)
Definition worker_echo (input : ResearcherInput) : option ResearcherResult :=
  Some {| compressed_research := Some ("notes on " +:+ in_research_topic input);
          res_raw_notes := Some ["searched " +:+ in_research_topic input] |}.

(** A worker that raises. *)
Definition worker_raising (input : ResearcherInput) : option ResearcherResult := None.

(** A supervisor model that delegates topic A every round, and one that
    asks for nothing. *)
Definition model_delegating (messages : list Message) : option AIResponse :=
  Some {| ai_content := ""; ai_tool_calls := [call_a] |}.

Definition model_silent (messages : list Message) : option AIResponse :=
  Some {| ai_content := "nothing further"; ai_tool_calls := [] |}.

(** The state the supervisor graph is entered with after scoping. *)
Definition state_fresh : SupervisorState :=
  {| supervisor_messages := [HumanMessage "Compare A, B and C."];
     research_brief := Some "Compare A, B and C";
     notes := [];
     research_iterations := None;
     raw_notes := [] |}.

(** A state entered with the counter already at the maximum. *)
Definition state_budget_used : SupervisorState :=
  {| supervisor_messages := [HumanMessage "Compare A, B and C."];
     research_brief := Some "Compare A, B and C";
     notes := [];
     research_iterations := Some 6;
     raw_notes := [] |}.

(** After a planning step that delegated A, B and C. *)
Definition state_abc : SupervisorState :=
  {| supervisor_messages :=
       [HumanMessage "Compare A, B and C."; AIMessage "" [call_a; call_b; call_c]];
     research_brief := Some "Compare A, B and C";
     notes := [];
     research_iterations := Some 1;
     raw_notes := [] |}.

(** After a planning step that reflected and delegated A. *)
Definition state_reflect_a : SupervisorState :=
  {| supervisor_messages :=
       [HumanMessage "Compare A, B and C."; AIMessage "" [reflect "R" "start with A"; call_a]];
     research_brief := Some "Compare A, B and C";
     notes := [];
     research_iterations := Some 1;
     raw_notes := [] |}.

(** After a round on A, with an assistant message that asks for nothing. *)
Definition state_finished : SupervisorState :=
  {| supervisor_messages :=
       [HumanMessage "Compare A, B and C.";
        AIMessage "" [call_a];
        ToolMessage "notes on topic A" "ConductResearch" "A";
        AIMessage "nothing further" []];
     research_brief := None;
     notes := [];
     research_iterations := Some 2;
     raw_notes := ["searched topic A"] |}.

(** The workers complete in the reverse of the call order. *)
Definition reverse_order : list nat := [2; 1; 0]%nat.

(** Scoping: a decision to proceed and a brief. *)
Definition get_buffer_string (messages : list Message) : string :=
  Str.join Str.newline (msg_content <$> messages).

Definition template (transcript date : string) : string := transcript +:+ date.

Definition clarify_proceed (messages : list Message) : option Scope.ClarifyWithUser :=
  Some {| Scope.need_clarification := false;
          Scope.question := "";
          Scope.verification := "Starting the research." |}.

Definition brief_writer (messages : list Message) : option Scope.ResearchQuestion :=
  Some {| Scope.rq_research_brief := "Compare A, B and C" |}.

Definition agent_state : Scope.AgentState :=
  {| Scope.messages := [HumanMessage "Which of A, B and C is best?"];
     Scope.research_brief := None;
     Scope.supervisor_messages := [];
     Scope.raw_notes := [];
     Scope.notes := [];
     Scope.final_report := None |}.

(** Worker synthesis: a compression model and a private transcript. *)
Definition compress_model (messages : list Message) : option AIResponse :=
  Some {| ai_content := "A is documented."; ai_tool_calls := [] |}.

Definition search_call : ToolCall :=
  {| tc_name := "tavily_search"; tc_args := {[ "query" := "A" ]}; tc_id := "S" |}.

Definition worker_state : Researcher.ResearcherState :=
  {| Researcher.researcher_messages :=
       [HumanMessage "topic A";
        AIMessage "searching" [search_call];
        ToolMessage "a page about A" "tavily_search" "S";
        AIMessage "A is covered" []];
     Researcher.tool_call_iterations := None;
     Researcher.research_topic := Some "topic A";
     Researcher.compressed_research := None;
     Researcher.raw_notes := [] |}.

(** A search client that finds nothing. *)
Definition search_nothing (query : string) (max_results : Z) (include_raw_content : bool)
  (topic : Search.Topic) : option Search.SearchResponse :=
  Some {| Search.results := [] |}.

Definition summarizer (messages : list Message) : option Search.Summary := None.

End Scenario.

(** ** The specification's words, as definitions *)

Module Spec.

(** "Every Tool Result's content, in transcript order." *)
Fixpoint tool_result_contents (transcript : list Message) : list string :=
  match transcript with
  | [] => []
  | ToolMessage content _ _ :: rest => content :: tool_result_contents rest
  | _ :: rest => tool_result_contents rest
  end.

(** "Every Tool-Result and assistant-Message content from the private
    transcript", in transcript order. *)
Fixpoint tool_and_assistant_contents (transcript : list Message) : list string :=
  match transcript with
  | [] => []
  | ToolMessage content _ _ :: rest => content :: tool_and_assistant_contents rest
  | AIMessage content _ :: rest => content :: tool_and_assistant_contents rest
  | _ :: rest => tool_and_assistant_contents rest
  end.

(** "Concatenated with newline separators into a single blob": each
    content but the last is followed by one line feed. *)
Fixpoint newline_separated (contents : list string) : string :=
  match contents with
  | [] => ""
  | content :: rest =>
      match rest with
      | [] => content
      | _ => content +:+ Str.newline +:+ newline_separated rest
      end
  end.

End Spec.

(** ** Reading a dictionary of search results *)

Module SearchLookup.
Import Search.

(** [d.get(key)]: the value stored under [key], if any. *)
Fixpoint dict_get {V} (key : string) (d : Dict V) : option V :=
  match d with
  | [] => None
  | (k, v) :: rest => if decide (k = key) then Some v else dict_get key rest
  end.

(** The documents in the order the two loops of
    [deduplicate_search_results] visit them. *)
Definition documents (search_results : list SearchResponse) : list SearchResult :=
  concat (results <$> search_results).

(** The first document with a given URL. *)
Fixpoint first_with_url (source_url : string) (docs : list SearchResult)
  : option SearchResult :=
  match docs with
  | [] => None
  | doc :: rest =>
      if decide (url doc = source_url) then Some doc else first_with_url source_url rest
  end.

End SearchLookup.

(** ** Counting over a transcript *)

Module Transcript.

(** The number of assistant messages of a transcript. *)
Definition assistant_messages (messages : list Message) : nat :=
  length (filter_messages messages [TAi]).

End Transcript.

(** ** Worker with MCP tools ([research_agent_mcp.py]) *)

Module ResearcherMCP.

(** A tool: its name and what invoking it on an argument dictionary
    returns ([None] when it raises). *)
Record Tool := mkTool {
  tool_name : string;
  tool_invoke : gmap string string → option string
}.

Definition think_tool_tool : Tool :=
  {| tool_name := "think_tool"; tool_invoke := think_tool |}.

(** [{tool.name: tool for tool in tools}]: a later tool replaces an earlier
    one of the same name. *)
Definition tools_by_name (tools : list Tool) : gmap string Tool :=
  foldl (λ by_name tool, <[tool_name tool := tool]> by_name) ∅ tools.

(** The tool messages built from the observations. *)
Definition tool_outputs (observations : list string) (calls : list ToolCall)
  : list Message :=
  zip_with (λ observation tool_call,
              ToolMessage observation (tc_name tool_call) (tc_id tool_call))
           observations calls.

(** The node [tool_node]; [mcp_tools] is what [client.get_tools()] has
    returned, [None] when it raised. *)
Definition tool_node (mcp_tools : option (list Tool)) (state : Researcher.ResearcherState)
  : option Researcher.Update :=
  last ← last_message (Researcher.researcher_messages state);
  calls ← tool_calls last;
  server_tools ← mcp_tools;
  let tools := server_tools ++ [think_tool_tool] in
  observations ←
    mapM (λ tool_call,
            tool ← tools_by_name tools !! tc_name tool_call;
            tool_invoke tool (tc_args tool_call))
         calls;
  Some (Researcher.messages_update (tool_outputs observations calls)).

End ResearcherMCP.

(** ** Further concrete collaborators and states *)

Module Cases.
Import Scenario.

Definition call_d : ToolCall := conduct "D" "topic D".

(** A tool call of a name the supervisor does not handle. *)
Definition call_other : ToolCall :=
  {| tc_name := "summarise"; tc_args := ∅; tc_id := "O" |}.

(** One reflection, four delegations and a call of another name. *)
Definition calls_mixed : list ToolCall :=
  [call_a; reflect "R" "four topics"; call_b; call_other; call_c; call_d].

(** A search tool that answers from the query. *)
Definition search_echo (query : string) (max_results : Z) (topic : Search.Topic)
  : option string :=
  Some ("results for " +:+ query).


(** A worker state whose last message asks for a search and a reflection. *)
Definition acting_state : Researcher.ResearcherState :=
  {| Researcher.researcher_messages :=
       [HumanMessage "topic A";
        AIMessage "" [search_call; reflect "R" "check the page"]];
     Researcher.tool_call_iterations := None;
     Researcher.research_topic := Some "topic A";
     Researcher.compressed_research := None;
     Researcher.raw_notes := [] |}.

(** A worker state whose last message asks for two reflections. *)
Definition reflecting_state : Researcher.ResearcherState :=
  {| Researcher.researcher_messages :=
       [HumanMessage "topic A";
        AIMessage "" [reflect "R1" "read the file"; reflect "R2" "enough"]];
     Researcher.tool_call_iterations := None;
     Researcher.research_topic := Some "topic A";
     Researcher.compressed_research := None;
     Researcher.raw_notes := [] |}.

(** Tools of a server, one of them named like the reflection tool. *)
Definition server_tools : list ResearcherMCP.Tool :=
  [{| ResearcherMCP.tool_name := "think_tool";
      ResearcherMCP.tool_invoke := λ _, Some "from the server" |};
   {| ResearcherMCP.tool_name := "read_file";
      ResearcherMCP.tool_invoke := λ _, Some "file content" |}].

(** A search response with a repeated URL. *)
Definition doc (source_url source_title text : string) : Search.SearchResult :=
  {| Search.url := source_url; Search.title := source_title;
     Search.content := text; Search.raw_content := None |}.

Definition responses : list Search.SearchResponse :=
  [{| Search.results := [doc "u1" "first" "one"; doc "u2" "second" "two"] |};
   {| Search.results := [doc "u1" "again" "three"; doc "u3" "third" "four"] |}].

Definition search_one (query : string) (max_results : Z) (include_raw_content : bool)
  (topic : Search.Topic) : option Search.SearchResponse :=
  Some {| Search.results := [doc "u1" "first" "one"] |}.

End Cases.

(** * Properties *)

(** ** The join returns results in call order *)

Section GatherFacts.
Context {A B : Type} (run : A → option B).
Implicit Types (coros : list A) (slots : list (option (option B))) (order : list nat).

Lemma complete_length coros slots i :
  length (Asyncio.complete run coros slots i) = length slots.
Proof.
  unfold Asyncio.complete. destruct (coros !! i); [apply length_insert | done].
Qed.

Lemma fold_complete_length coros order slots :
  length (foldl (Asyncio.complete run coros) slots order) = length slots.
Proof.
  revert slots. induction order as [|i order IH]; intros slots; simpl; [done|].
  rewrite IH. apply complete_length.
Qed.

(** A slot that holds the outcome of its own coroutine keeps it. *)
Lemma complete_keeps coros slots i j c :
  coros !! i = Some c →
  slots !! i = Some (Some (run c)) →
  Asyncio.complete run coros slots j !! i = Some (Some (run c)).
Proof.
  intros Hc Hs. unfold Asyncio.complete.
  destruct (coros !! j) as [c'|] eqn:Hj; [|done].
  destruct (decide (j = i)) as [->|Hne].
  - rewrite Hc in Hj. injection Hj as <-.
    apply list_lookup_insert_eq. by eapply lookup_lt_Some.
  - by rewrite list_lookup_insert_ne.
Qed.

Lemma fold_complete_keeps coros order slots i c :
  coros !! i = Some c →
  slots !! i = Some (Some (run c)) →
  foldl (Asyncio.complete run coros) slots order !! i = Some (Some (run c)).
Proof.
  intros Hc. revert slots.
  induction order as [|j order IH]; intros slots Hs; simpl; [done|].
  apply IH. by apply complete_keeps.
Qed.

(** Once position [i] has completed, its slot holds its outcome. *)
Lemma fold_complete_fills coros order slots i c :
  i ∈ order →
  coros !! i = Some c →
  (i < length slots)%nat →
  foldl (Asyncio.complete run coros) slots order !! i = Some (Some (run c)).
Proof.
  intros Hin Hc. revert slots.
  induction order as [|j order IH]; intros slots Hlen; simpl.
  - by apply elem_of_nil in Hin.
  - apply elem_of_cons in Hin as [<-|Hin].
    + apply fold_complete_keeps; [done|].
      unfold Asyncio.complete. rewrite Hc. by apply list_lookup_insert_eq.
    + apply IH; [done|]. by rewrite complete_length.
Qed.

Lemma join_filled_slots coros :
  Asyncio.join_slots ((λ c, Some (run c)) <$> coros) = mapM run coros.
Proof.
  unfold Asyncio.join_slots.
  induction coros as [|c coros IH]; [done|].
  rewrite fmap_cons. cbn [mapM]. rewrite IH.
  by destruct (run c).
Qed.

(** Whatever the completion order, the join hands back the outcomes in the
    order the coroutines were passed. *)
Lemma gather_call_order coros order :
  Asyncio.gather run coros order = mapM run coros.
Proof.
  unfold Asyncio.gather. rewrite <- join_filled_slots. f_equal.
  apply list_eq. intros i. rewrite list_lookup_fmap.
  destruct (coros !! i) as [c|] eqn:Hc; simpl.
  - apply fold_complete_fills; [|done|].
    + apply elem_of_app. right. apply elem_of_seq.
      apply lookup_lt_Some in Hc. lia.
    + rewrite length_replicate. by eapply lookup_lt_Some.
  - apply lookup_ge_None. rewrite fold_complete_length, length_replicate.
    by apply lookup_ge_None.
Qed.

End GatherFacts.

(** ** Supervisor: the iteration budget *)

Module SupervisorBudget.
Import Supervisor.

Section Facts.
Variable today : string.
Variable lead_researcher_prompt : string → Z → Z → string.
Variable supervisor_model_with_tools : list Message → option AIResponse.
Variable researcher_agent : ResearcherInput → option ResearcherResult.

Local Abbreviation supervisor :=
  (Supervisor.supervisor today lead_researcher_prompt supervisor_model_with_tools).
Local Abbreviation supervisor_tools := (Supervisor.supervisor_tools researcher_agent).
Local Abbreviation run_graph :=
  (Supervisor.run_graph today lead_researcher_prompt supervisor_model_with_tools
     researcher_agent).
Local Abbreviation supervisor_agent :=
  (Supervisor.supervisor_agent today lead_researcher_prompt supervisor_model_with_tools
     researcher_agent).

(** The planning step adds one to the counter, appends the response and
    hands over to the executing step. *)
Lemma supervisor_increments state c :
  supervisor state = Some c →
  goto c = supervisor_tools_node ∧
  round_counter (apply_update state (update c)) = round_counter state + 1.
Proof.
  unfold Supervisor.supervisor. intros H.
  destruct (supervisor_model_with_tools _) as [response|]; simplify_eq/=.
  done.
Qed.

(** After the planning step the last message of the transcript is the
    assistant's response, so the executing step finds its tool calls. *)
Lemma supervisor_appends_response state c :
  supervisor state = Some c →
  ∃ response,
    supervisor_model_with_tools (supervisor_prompt today lead_researcher_prompt state)
    = Some response ∧
    last_message (supervisor_messages (apply_update state (update c)))
    = Some (AIMessage (ai_content response) (ai_tool_calls response)).
Proof.
  unfold Supervisor.supervisor. intros H.
  destruct (supervisor_model_with_tools _) as [response|]; simplify_eq/=.
  exists response. split; [done|]. unfold last_message. by rewrite last_snoc.
Qed.

(** The two shapes of what the executing step returns. *)
Lemma supervisor_tools_cases order state c :
  supervisor_tools order state = Some c →
  c = end_command state ∨
  (exceeded_iterations state = false ∧
   ∃ tool_messages all_raw_notes, c = continue_command tool_messages all_raw_notes).
Proof.
  unfold Supervisor.supervisor_tools. intros H.
  destruct (last_message _) as [m|]; simplify_eq/=.
  destruct (tool_calls m) as [calls|]; simplify_eq/=.
  destruct (exceeded_iterations state) eqn:He; simplify_eq/=; [by left|].
  destruct (no_tool_calls calls || research_complete calls); simplify_eq/=; [by left|].
  destruct (Supervisor.execute_tool_calls _ _ _) as [[tm rn]|]; simplify_eq/=.
  - right. eauto.
  - by left.
Qed.

(** The executing step never writes the counter. *)
Lemma supervisor_tools_keeps_counter order state c :
  supervisor_tools order state = Some c →
  round_counter (apply_update state (update c)) = round_counter state.
Proof.
  intros H. apply supervisor_tools_cases in H as [->|(_ & tm & rn & ->)]; done.
Qed.

(** With the budget used up the executing step ends the run. *)
Lemma supervisor_tools_stops_at_max order state c :
  max_researcher_iterations ≤ round_counter state →
  supervisor_tools order state = Some c →
  goto c = END.
Proof.
  intros Hmax H. apply supervisor_tools_cases in H as [->|(He & _)]; [done|].
  unfold exceeded_iterations in He. by apply bool_decide_eq_false in He.
Qed.

(** What a run that ends has made of the counter, node by node: the
    planning step may take it one past the value the run was entered
    with, and beyond the maximum no further round is played. *)
Lemma run_graph_bound schedule fuel node state state' :
  run_graph schedule fuel node state = Done state' →
  match node with
  | supervisor_node =>
      round_counter state' ≤ Z.max (round_counter state + 1) max_researcher_iterations
  | supervisor_tools_node =>
      round_counter state' ≤ Z.max (round_counter state) max_researcher_iterations
  | END => state' = state
  end.
Proof.
  revert node state.
  induction fuel as [|fuel IH]; intros node state Hrun.
  - destruct node; simplify_eq/=. done.
  - destruct node; simpl in Hrun.
    + destruct (supervisor state) as [c|] eqn:Hc; [|done].
      destruct (supervisor_increments _ _ Hc) as [Hgoto Hcount].
      rewrite Hgoto in Hrun. apply IH in Hrun. simpl in Hrun. lia.
    + destruct (supervisor_tools (schedule fuel) state) as [c|] eqn:Hc; [|done].
      pose proof (supervisor_tools_keeps_counter _ _ _ Hc) as Hkeep.
      destruct (supervisor_tools_cases _ _ _ Hc) as [->|(He & tm & rn & ->)].
      * apply IH in Hrun. simpl in Hrun. subst state'.
        unfold round_counter in *. simpl in *. lia.
      * apply IH in Hrun. simpl in Hrun.
        unfold exceeded_iterations in He. apply bool_decide_eq_false in He.
        unfold round_counter in *. simpl in *. lia.
    + by simplify_eq.
Qed.

(** Fuel enough for the remaining budget: the run ends or raises. *)
Lemma run_graph_fuel schedule (n : nat) :
  ∀ fuel state,
    max_researcher_iterations - round_counter state ≤ Z.of_nat n →
    (2 * n + 2 ≤ fuel)%nat →
    run_graph schedule fuel supervisor_node state ≠ OutOfFuel.
Proof.
  induction n as [|n IH]; intros fuel state Hbudget Hfuel.
  - destruct fuel as [|[|fuel]]; [lia|lia|]. simpl.
    destruct (supervisor state) as [c|] eqn:Hc; [|done].
    destruct (supervisor_increments _ _ Hc) as [-> Hcount]. simpl.
    destruct (supervisor_tools _ _) as [c'|] eqn:Hc'; [|done].
    assert (goto c' = END) as ->.
    { eapply supervisor_tools_stops_at_max; [|exact Hc']. lia. }
    by destruct fuel.
  - destruct fuel as [|[|fuel]]; [lia|lia|]. simpl.
    destruct (supervisor state) as [c|] eqn:Hc; [|done].
    destruct (supervisor_increments _ _ Hc) as [-> Hcount]. simpl.
    destruct (supervisor_tools _ _) as [c'|] eqn:Hc'; [|done].
    pose proof (supervisor_tools_keeps_counter _ _ _ Hc') as Hkeep.
    destruct (supervisor_tools_cases _ _ _ Hc') as [->|(He & tm & rn & ->)].
    + by destruct fuel.
    + apply IH; [|lia]. simpl in Hkeep |- *. lia.
Qed.

(** C1. A run of the supervisor graph entered with the counter below the
    maximum (in particular with the counter at its default, zero) that
    reaches the end has its counter at most [max_researcher_iterations]. *)
Theorem termination_bound schedule fuel state state' :
  round_counter state < max_researcher_iterations →
  supervisor_agent schedule fuel state = Done state' →
  round_counter state' ≤ max_researcher_iterations.
Proof.
  intros Hlt Hrun. apply run_graph_bound in Hrun. simpl in Hrun. lia.
Qed.

End Facts.
End SupervisorBudget.

(** ** Supervisor: the executing step *)

Module SupervisorStep.
Import Supervisor.

(** The code's note extraction is the specification's. *)
Lemma get_notes_tool_result_contents messages :
  get_notes_from_tool_calls messages = Spec.tool_result_contents messages.
Proof.
  unfold get_notes_from_tool_calls, filter_messages.
  induction messages as [|m messages IH]; [done|].
  rewrite filter_cons.
  destruct m; simpl; [exact IH..|]. f_equal. exact IH.
Qed.

Lemma no_tool_calls_true calls : no_tool_calls calls = true ↔ calls = [].
Proof. by destruct calls. Qed.

Lemma research_complete_true calls :
  research_complete calls = true ↔
  ∃ tool_call, tool_call ∈ calls ∧ tc_name tool_call = "ResearchComplete".
Proof.
  unfold research_complete. rewrite existsb_exists. split.
  - intros (tc & Hin & Hname). exists tc. split; [by apply list_elem_of_In|].
    by apply bool_decide_eq_true in Hname.
  - intros (tc & Hin & Hname). exists tc. split; [by apply list_elem_of_In|].
    by apply bool_decide_eq_true.
Qed.

Section Facts.
Variable researcher_agent : ResearcherInput → option ResearcherResult.

Local Abbreviation supervisor_tools := (Supervisor.supervisor_tools researcher_agent).
Local Abbreviation execute_tool_calls := (Supervisor.execute_tool_calls researcher_agent).

(** When the last message is an assistant message the step returns a
    command, decided by the four tests of the code. *)
Lemma supervisor_tools_unfold order state content calls :
  last_message (supervisor_messages state) = Some (AIMessage content calls) →
  supervisor_tools order state =
  Some (if exceeded_iterations state || no_tool_calls calls || research_complete calls
        then end_command state
        else match execute_tool_calls order calls with
             | None => end_command state
             | Some (tool_messages, all_raw_notes) =>
                 continue_command tool_messages all_raw_notes
             end).
Proof.
  intros Hlast. unfold Supervisor.supervisor_tools. rewrite Hlast. simpl.
  destruct (_ || _ || _); [done|].
  by destruct (Supervisor.execute_tool_calls _ _ _) as [[??]|].
Qed.

(** C2. The executing step ends the run exactly when the budget is used
    up, or the assistant message has no tool call, or it has a
    [ResearchComplete] tool call, or executing the tool calls raises;
    otherwise it returns to the planning step. An empty tool-call list
    ends the run whatever the counter. *)
Theorem termination_check order state content calls :
  last_message (supervisor_messages state) = Some (AIMessage content calls) →
  ∃ c, supervisor_tools order state = Some c ∧
    (goto c = END ↔
       max_researcher_iterations ≤ round_counter state
       ∨ calls = []
       ∨ (∃ tool_call, tool_call ∈ calls ∧ tc_name tool_call = "ResearchComplete")
       ∨ execute_tool_calls order calls = None) ∧
    (goto c ≠ END → goto c = supervisor_node) ∧
    (calls = [] → goto c = END).
Proof.
  intros Hlast. rewrite (supervisor_tools_unfold _ _ _ _ Hlast).
  eexists. split; [done|].
  pose proof (no_tool_calls_true calls) as Hnone.
  pose proof (research_complete_true calls) as Hcomplete.
  unfold exceeded_iterations.
  destruct (bool_decide_reflect (max_researcher_iterations ≤ round_counter state))
    as [Hmax|Hmax]; simpl; [by intuition|].
  destruct (no_tool_calls calls); simpl; [by intuition|].
  destruct (research_complete calls); simpl; [by intuition|].
  destruct (execute_tool_calls order calls) as [[tm rn]|] eqn:Hexec; simpl.
  - split; [split; [done|]|split; [done|]].
    + intros [Ha|[Hb|[Hc|Hd]]]; [lia| | |done].
      * by apply Hnone in Hb.
      * by apply Hcomplete in Hc.
    + intros Hb. by apply Hnone in Hb.
  - by intuition.
Qed.

(** C5. On the terminal transition the update carries the content of
    every tool message of the coordination transcript, in transcript
    order, and the research brief of the state (the empty string when the
    state has none); the transcript itself is left as it was. *)
Theorem final_notes order state c :
  supervisor_tools order state = Some c →
  goto c = END →
  u_notes (update c) = Some (Spec.tool_result_contents (supervisor_messages state)) ∧
  u_research_brief (update c) = Some (default "" (research_brief state)) ∧
  research_brief (apply_update state (update c)) = Some (default "" (research_brief state)) ∧
  notes (apply_update state (update c))
    = notes state ++ Spec.tool_result_contents (supervisor_messages state) ∧
  supervisor_messages (apply_update state (update c)) = supervisor_messages state.
Proof.
  intros Hstep Hgoto.
  apply SupervisorBudget.supervisor_tools_cases in Hstep as [->|(_ & tm & rn & ->)];
    [|discriminate Hgoto].
  simpl. rewrite get_notes_tool_result_contents, app_nil_r. done.
Qed.

End Facts.
End SupervisorStep.

(** ** Supervisor: delegation, faults and isolation *)

Module SupervisorDelegation.
Import Supervisor.

(** Two fallible maps in a row fail or succeed as the map of the
    composed function does. *)
Lemma mapM_bind {A B C} (f : A → option B) (g : B → option C) (l : list A) :
  mapM f l ≫= mapM g = mapM (λ x, f x ≫= g) l.
Proof.
  induction l as [|x l IH]; [done|].
  cbn [mapM]. rewrite <- IH.
  destruct (f x) as [y|]; simpl; [|done].
  destruct (mapM f l) as [k|]; simpl.
  - by destruct (g y).
  - by destruct (g y).
Qed.

Lemma research_tool_message_ids results calls :
  length results = length calls →
  msg_tool_call_id <$> zip_with research_tool_message results calls
  = Some ∘ tc_id <$> calls.
Proof.
  revert calls. induction results as [|r results IH]; intros [|tc calls] Hlen;
    simplify_eq/=; [done|].
  f_equal. by apply IH.
Qed.

Section Facts.
Variable researcher_agent : ResearcherInput → option ResearcherResult.

Local Abbreviation supervisor_tools := (Supervisor.supervisor_tools researcher_agent).
Local Abbreviation execute_tool_calls := (Supervisor.execute_tool_calls researcher_agent).
Local Abbreviation delegate := (Supervisor.delegate researcher_agent).

(** The [try] block, with the join replaced by what it returns: the
    completion order has no part in the result. *)
Lemma execute_tool_calls_eq order calls :
  execute_tool_calls order calls =
  (think_messages ← mapM think_tool_message (think_tool_calls calls);
   results ← mapM delegate (conduct_research_calls calls);
   Some (think_messages
           ++ zip_with research_tool_message results (conduct_research_calls calls),
         raw_note_blob <$> results)).
Proof.
  unfold Supervisor.execute_tool_calls, Supervisor.delegate.
  destruct (mapM think_tool_message _) as [think_messages|]; simpl; [|done].
  destruct (conduct_research_calls calls) as [|tc conduct] eqn:Hconduct.
  - simpl. by rewrite app_nil_r.
  - rewrite <- mapM_bind.
    destruct (mapM researcher_input (tc :: conduct)) as [coros|]; simpl; [|done].
    by rewrite gather_call_order.
Qed.

Lemma execute_tool_calls_order order order' calls :
  execute_tool_calls order calls = execute_tool_calls order' calls.
Proof. by rewrite !execute_tool_calls_eq. Qed.

Lemma supervisor_tools_order order order' state :
  supervisor_tools order state = supervisor_tools order' state.
Proof.
  unfold Supervisor.supervisor_tools.
  destruct (last_message _) as [m|]; simpl; [|done].
  destruct (tool_calls m) as [calls|]; simpl; [|done].
  by rewrite (execute_tool_calls_order order order').
Qed.

(** What a successful [try] block has built. *)
Lemma execute_tool_calls_Some order calls tool_messages all_raw_notes :
  execute_tool_calls order calls = Some (tool_messages, all_raw_notes) →
  ∃ think_messages results,
    mapM think_tool_message (think_tool_calls calls) = Some think_messages ∧
    mapM delegate (conduct_research_calls calls) = Some results ∧
    tool_messages
      = think_messages
          ++ zip_with research_tool_message results (conduct_research_calls calls) ∧
    all_raw_notes = raw_note_blob <$> results.
Proof.
  rewrite execute_tool_calls_eq. intros H.
  destruct (mapM think_tool_message _) as [think_messages|]; simplify_eq/=.
  destruct (mapM (Supervisor.delegate _) _) as [results|]; simplify_eq/=.
  by exists think_messages, results.
Qed.

(** C3. When the executing step returns to planning, the tool messages it
    appends end with one message per delegation call, in the order of the
    calls, each with the id of its call and the outcome of the worker
    started on that call; the command is the same for every completion
    order of the workers. *)
Theorem delegation_results_in_call_order order state c :
  supervisor_tools order state = Some c →
  goto c = supervisor_node →
  ∃ content calls think_messages results,
    last_message (supervisor_messages state) = Some (AIMessage content calls) ∧
    (∀ order', supervisor_tools order' state = Some c) ∧
    supervisor_messages (apply_update state (update c))
      = supervisor_messages state ++ think_messages
          ++ zip_with research_tool_message results (conduct_research_calls calls) ∧
    length think_messages = length (think_tool_calls calls) ∧
    Forall2 (λ tool_call result, delegate tool_call = Some result)
            (conduct_research_calls calls) results ∧
    msg_tool_call_id <$> zip_with research_tool_message results (conduct_research_calls calls)
      = Some ∘ tc_id <$> conduct_research_calls calls.
Proof.
  intros Hstep Hgoto.
  assert (∀ order', supervisor_tools order' state = Some c) as Hany.
  { intros order'. by rewrite (supervisor_tools_order order' order). }
  unfold Supervisor.supervisor_tools in Hstep.
  destruct (last_message _) as [[| |content calls|]|] eqn:Hlast; simplify_eq/=.
  destruct (_ || _ || _); simplify_eq/=.
  destruct (Supervisor.execute_tool_calls _ _ _) as [[tm rn]|] eqn:Hexec; simplify_eq/=.
  apply execute_tool_calls_Some in Hexec
    as (think_messages & results & Hthink & Hresults & -> & ->).
  exists content, calls, think_messages, results.
  apply mapM_Some in Hresults. apply length_mapM in Hthink.
  split_and!; [done|done|done|done|done|].
  apply research_tool_message_ids. symmetry. by eapply Forall2_length.
Qed.

(** One worker of a step: its input is built from its own topic alone, and
    its tool message and raw-note blob are built from its own outcome. *)
Lemma execute_tool_calls_worker order calls tool_messages all_raw_notes i tool_call topic :
  execute_tool_calls order calls = Some (tool_messages, all_raw_notes) →
  conduct_research_calls calls !! i = Some tool_call →
  tc_args tool_call !! "research_topic" = Some topic →
  researcher_input tool_call
    = Some {| in_researcher_messages := [HumanMessage topic];
              in_research_topic := topic |} ∧
  ∃ result,
    researcher_agent {| in_researcher_messages := [HumanMessage topic];
                        in_research_topic := topic |} = Some result ∧
    tool_messages !! (length (think_tool_calls calls) + i)%nat
      = Some (research_tool_message result tool_call) ∧
    all_raw_notes !! i = Some (raw_note_blob result).
Proof.
  intros Hexec Hcall Htopic.
  assert (researcher_input tool_call
          = Some {| in_researcher_messages := [HumanMessage topic];
                    in_research_topic := topic |}) as Hinput.
  { unfold researcher_input. by rewrite Htopic. }
  split; [done|].
  apply execute_tool_calls_Some in Hexec
    as (think_messages & results & Hthink & Hresults & -> & ->).
  apply length_mapM in Hthink.
  apply mapM_Some in Hresults.
  destruct (Forall2_lookup_l _ _ _ _ _ Hresults Hcall) as (result & Hresult & Hrun).
  unfold Supervisor.delegate in Hrun. rewrite Hinput in Hrun. simpl in Hrun.
  exists result. split; [done|]. split.
  - rewrite Hthink, lookup_app_r by lia.
    replace (length think_messages + i - length think_messages)%nat with i by lia.
    rewrite lookup_zip_with, Hresult. simpl. by rewrite Hcall.
  - by rewrite list_lookup_fmap, Hresult.
Qed.

(** C4. Two steps that delegate the same topic, at any positions and next
    to any sibling calls, under any completion orders, start that worker
    on the same input, which holds the topic and nothing else, and get the
    same tool-message content and raw-note blob from it. *)
Theorem worker_isolation order1 order2 calls1 calls2 i j tool_call1 tool_call2 topic
    tool_messages1 raw_notes1 tool_messages2 raw_notes2 :
  execute_tool_calls order1 calls1 = Some (tool_messages1, raw_notes1) →
  execute_tool_calls order2 calls2 = Some (tool_messages2, raw_notes2) →
  conduct_research_calls calls1 !! i = Some tool_call1 →
  conduct_research_calls calls2 !! j = Some tool_call2 →
  tc_args tool_call1 !! "research_topic" = Some topic →
  tc_args tool_call2 !! "research_topic" = Some topic →
  researcher_input tool_call1
    = Some {| in_researcher_messages := [HumanMessage topic];
              in_research_topic := topic |} ∧
  researcher_input tool_call2 = researcher_input tool_call1 ∧
  msg_content <$> tool_messages1 !! (length (think_tool_calls calls1) + i)%nat
    = msg_content <$> tool_messages2 !! (length (think_tool_calls calls2) + j)%nat ∧
  raw_notes1 !! i = raw_notes2 !! j ∧
  is_Some (raw_notes1 !! i).
Proof.
  intros Hexec1 Hexec2 Hcall1 Hcall2 Htopic1 Htopic2.
  destruct (execute_tool_calls_worker _ _ _ _ _ _ _ Hexec1 Hcall1 Htopic1)
    as (Hin1 & r1 & Hr1 & Hm1 & Hn1).
  destruct (execute_tool_calls_worker _ _ _ _ _ _ _ Hexec2 Hcall2 Htopic2)
    as (Hin2 & r2 & Hr2 & Hm2 & Hn2).
  rewrite Hr1 in Hr2. injection Hr2 as <-.
  rewrite Hin1, Hin2, Hm1, Hm2, Hn1, Hn2. by eauto.
Qed.

End Facts.
End SupervisorDelegation.

(** ** Supervisor: the fault path *)

Module SupervisorFault.
Import Supervisor.

Section Facts.
Variable today : string.
Variable lead_researcher_prompt : string → Z → Z → string.
Variable supervisor_model_with_tools : list Message → option AIResponse.
Variable researcher_agent : ResearcherInput → option ResearcherResult.

Local Abbreviation supervisor_tools := (Supervisor.supervisor_tools researcher_agent).
Local Abbreviation execute_tool_calls := (Supervisor.execute_tool_calls researcher_agent).
Local Abbreviation delegate := (Supervisor.delegate researcher_agent).
Local Abbreviation run_graph :=
  (Supervisor.run_graph today lead_researcher_prompt supervisor_model_with_tools
     researcher_agent).

(** The exceptions of the [try] block: a reflection call whose arguments
    are refused, a delegation call without a topic, a worker that raises. *)
Lemma execute_tool_calls_None order calls :
  execute_tool_calls order calls = None ↔
  (∃ tool_call, tool_call ∈ think_tool_calls calls ∧ think_tool (tc_args tool_call) = None)
  ∨ (∃ tool_call, tool_call ∈ conduct_research_calls calls ∧ delegate tool_call = None).
Proof.
  rewrite SupervisorDelegation.execute_tool_calls_eq.
  assert (∀ tc, think_tool_message tc = None ↔ think_tool (tc_args tc) = None) as Hthink.
  { intros tc. unfold think_tool_message. by destruct (think_tool _). }
  split.
  - intros H.
    destruct (mapM think_tool_message _) as [tm|] eqn:Htm; simpl in H.
    + destruct (mapM delegate _) as [results|] eqn:Hres; [done|].
      right. apply mapM_None, Exists_exists in Hres as (tc & Hin & Hnone). eauto.
    + left. apply mapM_None, Exists_exists in Htm as (tc & Hin & Hnone).
      exists tc. split; [done|]. by apply Hthink.
  - intros [(tc & Hin & Hnone)|(tc & Hin & Hnone)].
    + rewrite (mapM_None_2 think_tool_message); [done|].
      apply Exists_exists. exists tc. split; [done|]. by apply Hthink.
    + destruct (mapM think_tool_message _); simpl; [|done].
      rewrite (mapM_None_2 delegate); [done|].
      apply Exists_exists. eauto.
Qed.

(** C6. When executing the tool calls raises, the step does not raise: it
    returns the terminal command, whose update carries the notes of the
    transcript as it was when the step began and the brief of the state,
    and appends nothing; the graph ends there. *)
Theorem fault_path order state content calls :
  last_message (supervisor_messages state) = Some (AIMessage content calls) →
  execute_tool_calls order calls = None →
  ∃ c, supervisor_tools order state = Some c ∧
    goto c = END ∧
    u_notes (update c) = Some (Spec.tool_result_contents (supervisor_messages state)) ∧
    u_research_brief (update c) = Some (default "" (research_brief state)) ∧
    u_supervisor_messages (update c) = None ∧
    u_raw_notes (update c) = None ∧
    ∀ schedule fuel,
      schedule fuel = order →
      run_graph schedule (S fuel) supervisor_tools_node state
      = Done (apply_update state (update c)).
Proof.
  intros Hlast Hraise.
  assert (supervisor_tools order state = Some (end_command state)) as Hstep.
  { rewrite (SupervisorStep.supervisor_tools_unfold _ _ _ _ _ Hlast), Hraise.
    by destruct (_ || _ || _). }
  exists (end_command state). split_and!; try done.
  - simpl. by rewrite SupervisorStep.get_notes_tool_result_contents.
  - intros schedule fuel Hsched. simpl. rewrite Hsched, Hstep. simpl. by destruct fuel.
Qed.

End Facts.
End SupervisorFault.

(** ** Worker: synthesis and the research loop *)

Module ResearcherFacts.
Import Researcher.

Lemma join_newline_separated contents :
  Str.join Str.newline contents = Spec.newline_separated contents.
Proof.
  induction contents as [|content rest IH]; [done|].
  destruct rest as [|next rest]; [done|].
  change (Str.join Str.newline (content :: next :: rest))
    with (content +:+ Str.newline +:+ Str.join Str.newline (next :: rest)).
  by rewrite IH.
Qed.

Lemma filter_tool_and_assistant messages :
  msg_content <$> filter_messages messages [TTool; TAi]
  = Spec.tool_and_assistant_contents messages.
Proof.
  unfold filter_messages.
  induction messages as [|m messages IH]; [done|].
  rewrite filter_cons.
  destruct m; simpl; [exact IH|exact IH|f_equal; exact IH|f_equal; exact IH].
Qed.

Lemma raw_notes_blob_spec messages :
  raw_notes_blob messages
  = Spec.newline_separated (Spec.tool_and_assistant_contents messages).
Proof.
  unfold raw_notes_blob.
  by rewrite filter_tool_and_assistant, join_newline_separated.
Qed.

Section Facts.
Variable today : string.
Variable research_agent_prompt : string.
Variable compress_research_system_prompt : string → string.
Variable compress_research_human_message : string.
Variable model_with_tools : list Message → option AIResponse.
Variable compress_model : list Message → option AIResponse.
Variable tavily_search : string → Z → Search.Topic → option string.

Local Abbreviation compress_research :=
  (Researcher.compress_research today compress_research_system_prompt
     compress_research_human_message compress_model).
Local Abbreviation step :=
  (Researcher.step today research_agent_prompt compress_research_system_prompt
     compress_research_human_message model_with_tools compress_model tavily_search).

(** C9. The synthesizing step returns, for the response of the final
    inference call, an update whose raw notes are one blob: the contents
    of the tool and assistant messages of the private transcript, in
    transcript order, separated by line feeds; its compressed research is
    the text of that response. *)
Theorem compress_research_output state response :
  compress_model
    ([SystemMessage (compress_research_system_prompt today)]
       ++ researcher_messages state
       ++ [HumanMessage compress_research_human_message]) = Some response →
  ∃ u, compress_research state = Some u ∧
    u_raw_notes u
      = Some [Spec.newline_separated
                (Spec.tool_and_assistant_contents (researcher_messages state))] ∧
    u_compressed_research u = Some (ai_content response) ∧
    u_researcher_messages u = None.
Proof.
  intros Hmodel. unfold Researcher.compress_research. rewrite Hmodel. simpl.
  eexists. split; [done|]. simpl. by rewrite raw_notes_blob_spec.
Qed.

(** No node writes the iteration counter of the worker state. *)
Lemma step_keeps_tool_call_iterations node state next state' :
  step node state = Some (next, state') →
  tool_call_iterations state' = tool_call_iterations state.
Proof.
  unfold Researcher.step. intros H. destruct node; simplify_option_eq.
  - unfold Researcher.llm_call in *. by simplify_option_eq.
  - unfold Researcher.tool_node in *. by simplify_option_eq.
  - unfold Researcher.compress_research in *. by simplify_option_eq.
  - done.
Qed.

(** The routing function reads the transcript and nothing else. *)
Lemma should_continue_reads_messages state1 state2 :
  researcher_messages state1 = researcher_messages state2 →
  should_continue state1 = should_continue state2.
Proof. unfold should_continue. by intros ->. Qed.

End Facts.
End ResearcherFacts.

(** ** Worker: a loop without a bound *)

Module ResearcherLoop.
Import Researcher.

Section Facts.
Variable today : string.
Variable research_agent_prompt : string.
Variable compress_research_system_prompt : string → string.
Variable compress_research_human_message : string.
Variable compress_model : list Message → option AIResponse.
Variable tavily_search : string → Z → Search.Topic → option string.

Local Abbreviation step :=
  (Researcher.step today research_agent_prompt compress_research_system_prompt
     compress_research_human_message reflecting_model compress_model tavily_search).
Local Abbreviation run_graph :=
  (Researcher.run_graph today research_agent_prompt compress_research_system_prompt
     compress_research_human_message reflecting_model compress_model tavily_search).
Local Abbreviation trace :=
  (Researcher.trace today research_agent_prompt compress_research_system_prompt
     compress_research_human_message reflecting_model compress_model tavily_search).
Local Abbreviation state_after :=
  (Researcher.state_after today research_agent_prompt compress_research_system_prompt
     compress_research_human_message reflecting_model compress_model tavily_search).

Lemma step_llm_call state :
  step llm_call_node state =
  Some (tool_node_node,
        apply_update state (messages_update [AIMessage "" [reflecting_call]])).
Proof.
  unfold Researcher.step, Researcher.llm_call, should_continue. simpl.
  unfold last_message. by rewrite last_snoc.
Qed.

Lemma step_tool_node state :
  last_message (researcher_messages state) = Some (AIMessage "" [reflecting_call]) →
  step tool_node_node state =
  Some (llm_call_node,
        apply_update state
          (messages_update
             [ToolMessage (think_tool_prefix +:+ "more evidence is needed")
                          "think_tool" "call_reflect"])).
Proof.
  intros Hlast. unfold Researcher.step, Researcher.tool_node. by rewrite Hlast.
Qed.

Lemma step_in_loop node state :
  in_loop node state →
  ∃ next state', step node state = Some (next, state') ∧ in_loop next state' ∧
    next ≠ END.
Proof.
  intros [->|[-> Hlast]].
  - eexists _, _. split; [apply step_llm_call|]. split; [|done].
    right. split; [done|]. simpl. unfold last_message. by rewrite last_snoc.
  - eexists _, _. split; [by apply step_tool_node|]. split; [by left|done].
Qed.

Lemma run_graph_in_loop fuel node state :
  in_loop node state → run_graph fuel node state = OutOfFuel.
Proof.
  revert node state. induction fuel as [|fuel IH]; intros node state Hloop.
  - by destruct Hloop as [->|[-> _]].
  - destruct (step_in_loop _ _ Hloop) as (next & state' & Hstep & Hloop' & _).
    destruct Hloop as [->|[-> Hlast]];
      cbn [Researcher.run_graph]; rewrite Hstep; by apply IH.
Qed.

Lemma state_after_in_loop fuel node state :
  in_loop node state →
  ∃ next state', state_after fuel node state = Some (next, state') ∧
    next ≠ END ∧ tool_call_iterations state' = tool_call_iterations state.
Proof.
  revert node state. induction fuel as [|fuel IH]; intros node state Hloop.
  - exists node, state. split; [done|]. split; [|done].
    by destruct Hloop as [->|[-> _]].
  - destruct (step_in_loop _ _ Hloop) as (next & state' & Hstep & Hloop' & _).
    destruct (IH _ _ Hloop') as (next' & state'' & Hafter & Hnext & Hkeep).
    exists next', state''. cbn [Researcher.state_after]. rewrite Hstep.
    split; [done|]. split; [done|]. rewrite Hkeep.
    by eapply ResearcherFacts.step_keeps_tool_call_iterations.
Qed.

Lemma trace_two_steps fuel state :
  ∃ state', trace (S (S fuel)) llm_call_node state
            = llm_call_node :: tool_node_node :: trace fuel llm_call_node state'.
Proof.
  eexists. cbn [Researcher.trace]. rewrite step_llm_call.
  cbn [Researcher.trace]. rewrite step_tool_node; [done|].
  simpl. unfold last_message. by rewrite last_snoc.
Qed.

Lemma tool_iterations_in_loop (n : nat) state :
  tool_iterations (trace (2 * n) llm_call_node state) = n.
Proof.
  revert state. induction n as [|n IH]; intros state; [done|].
  replace (2 * S n)%nat with (S (S (2 * n))) by lia.
  destruct (trace_two_steps (2 * n) state) as [state' ->].
  unfold tool_iterations in *. rewrite !filter_cons. simpl.
  by rewrite IH.
Qed.

(** C7, on the code: with a model that asks for a reflection every time,
    a worker started on any topic has not reached the synthesizing step
    after any number of steps, executes [tool_node] as often as wished,
    and its [tool_call_iterations] is as unset as it was at the start. *)
Theorem worker_loop_unbounded (input : Supervisor.ResearcherInput) (n : nat) :
  run_graph n llm_call_node (initial_state input) = OutOfFuel ∧
  tool_iterations (trace (2 * n) llm_call_node (initial_state input)) = n ∧
  ∃ node state,
    state_after n llm_call_node (initial_state input) = Some (node, state) ∧
    node ≠ END ∧ tool_call_iterations state = None.
Proof.
  split; [apply run_graph_in_loop; by left|].
  split; [apply tool_iterations_in_loop|].
  destruct (state_after_in_loop n llm_call_node (initial_state input))
    as (node & state & Hafter & Hnode & Hkeep); [by left|].
  by exists node, state.
Qed.

End Facts.
End ResearcherLoop.

(** ** Scoping stage: the two routes *)

Module ScopeFacts.
Import Scope.

Section Facts.
Variable today : string.
Variable get_buffer_string : list Message → string.
Variable clarify_with_user_instructions : string → string → string.
Variable transform_messages_into_research_topic_prompt : string → string → string.
Variable clarify_model : list Message → option ClarifyWithUser.
Variable brief_model : list Message → option ResearchQuestion.

Local Abbreviation clarify_with_user :=
  (Scope.clarify_with_user today get_buffer_string clarify_with_user_instructions
     clarify_model).
Local Abbreviation scope_research :=
  (Scope.scope_research today get_buffer_string clarify_with_user_instructions
     transform_messages_into_research_topic_prompt clarify_model brief_model).

(** The route is read off the structured decision. *)
Lemma clarify_with_user_goto state response :
  clarify_model
    [HumanMessage (clarify_with_user_instructions (get_buffer_string (messages state)) today)]
  = Some response →
  ∃ c, clarify_with_user state = Some c ∧
    goto c = (if need_clarification response then goto_end else goto_write_research_brief) ∧
    u_messages (update c)
    = Some [AIMessage (if need_clarification response
                       then question response else verification response) []].
Proof.
  intros Hmodel. unfold Scope.clarify_with_user. rewrite Hmodel. simpl.
  eexists. split; [done|]. by destruct (need_clarification response).
Qed.

(** C8. With [need_clarification] set, the scoping graph appends the
    question, runs no other node and ends, whatever the brief model would
    answer; with it unset, the graph appends the verification and runs the
    brief-generation node, and when that node's inference call answers,
    the brief is stored and, followed by a full stop, appended to the
    supervisor's transcript as a human message. *)
Theorem scoping_binary_routing state response :
  clarify_model
    [HumanMessage (clarify_with_user_instructions (get_buffer_string (messages state)) today)]
  = Some response →
  (need_clarification response = true →
     scope_research state
     = ([clarify_with_user_node],
        Some {| messages := messages state ++ [AIMessage (question response) []];
                research_brief := research_brief state;
                supervisor_messages := supervisor_messages state;
                raw_notes := raw_notes state;
                notes := notes state;
                final_report := final_report state |}) ∧
     (write_research_brief_node ∉ fst (scope_research state)) ∧
     ∀ other_brief_model,
       Scope.scope_research today get_buffer_string clarify_with_user_instructions
         transform_messages_into_research_topic_prompt clarify_model other_brief_model state
       = scope_research state) ∧
  (need_clarification response = false →
     fst (scope_research state) = [clarify_with_user_node; write_research_brief_node] ∧
     ∀ brief,
       brief_model
         [HumanMessage
            (transform_messages_into_research_topic_prompt
               (get_buffer_string (messages state ++ [AIMessage (verification response) []]))
               today)]
       = Some brief →
       ∃ final,
         snd (scope_research state) = Some final ∧
         messages final = messages state ++ [AIMessage (verification response) []] ∧
         research_brief final = Some (rq_research_brief brief) ∧
         supervisor_messages final
         = supervisor_messages state ++ [HumanMessage (rq_research_brief brief +:+ ".")] ∧
         Supervisor.research_brief (supervisor_input final)
         = Some (rq_research_brief brief) ∧
         Supervisor.research_iterations (supervisor_input final) = None).
Proof.
  intros Hmodel. split; intros Hneed.
  - assert (∀ other,
      Scope.scope_research today get_buffer_string clarify_with_user_instructions
        transform_messages_into_research_topic_prompt clarify_model other state
      = ([clarify_with_user_node],
         Some {| messages := messages state ++ [AIMessage (question response) []];
                 research_brief := research_brief state;
                 supervisor_messages := supervisor_messages state;
                 raw_notes := raw_notes state;
                 notes := notes state;
                 final_report := final_report state |})) as Hend.
    { intros other. unfold Scope.scope_research, Scope.clarify_with_user.
      rewrite Hmodel. simpl. rewrite Hneed. simpl.
      unfold Scope.apply_update. simpl. by rewrite app_nil_r. }
    split; [apply Hend|]. split.
    + rewrite Hend. simpl. intros Hin. apply list_elem_of_singleton in Hin. discriminate Hin.
    + intros other. by rewrite !Hend.
  - unfold Scope.scope_research, Scope.clarify_with_user.
    rewrite Hmodel. simpl. rewrite Hneed. simpl. split; [done|].
    intros brief Hbrief. unfold Scope.write_research_brief. simpl.
    rewrite Hbrief. simpl. eexists. split; [done|]. simpl.
    by rewrite !app_nil_r.
Qed.

End Facts.
End ScopeFacts.

(** ** Search adapter: the empty result set *)

Module SearchFacts.
Import Search.

(** Deduplication never drops the documents it has kept. *)
Lemma deduplicate_fold_length (documents : list SearchResult) (kept : Dict SearchResult) :
  (length kept
   ≤ length (foldl (λ unique_results result,
                      if dict_contains (url result) unique_results
                      then unique_results
                      else unique_results ++ [(url result, result)])
                   kept documents))%nat.
Proof.
  revert kept. induction documents as [|d documents IH]; intros kept; simpl; [done|].
  etrans; [|apply IH].
  destruct (dict_contains _ _); [done|]. rewrite length_app. lia.
Qed.

(** No unique document means that no response held a document. *)
Lemma deduplicate_nil search_results :
  deduplicate_search_results search_results = [] ↔
  concat (results <$> search_results) = [].
Proof.
  unfold deduplicate_search_results.
  destruct (concat (results <$> search_results)) as [|d documents]; [done|].
  split; [|done]. intros Hnil. exfalso.
  pose proof (deduplicate_fold_length documents [(url d, d)]) as Hlen.
  simpl in Hnil. rewrite Hnil in Hlen. simpl in Hlen. lia.
Qed.

Lemma deduplicate_single_nil response :
  deduplicate_search_results [response] = [] ↔ results response = [].
Proof. rewrite deduplicate_nil. simpl. by rewrite app_nil_r. Qed.

Lemma no_results_message_nonempty : no_results_message ≠ "".
Proof. done. Qed.

Section Facts.
Variable today : string.
Variable summarize_webpage_prompt : string → string → string.
Variable tavily_client_search : string → Z → bool → Topic → option SearchResponse.
Variable summarization_model : list Message → option Summary.

Local Abbreviation process_search_results :=
  (Search.process_search_results today summarize_webpage_prompt summarization_model).
Local Abbreviation tavily_search :=
  (Search.tavily_search today summarize_webpage_prompt tavily_client_search
     summarization_model).

(** C10. When the search has answered and deduplication leaves no
    document, the tool returns the fixed notice, which is not the empty
    string. *)
Theorem empty_search_fallback query max_results topic response :
  tavily_client_search query max_results true topic = Some response →
  deduplicate_search_results [response] = [] →
  tavily_search query max_results topic = Some no_results_message ∧
  no_results_message ≠ "".
Proof.
  intros Hsearch Hempty. split; [|apply no_results_message_nonempty].
  unfold Search.tavily_search, tavily_search_multiple. simpl.
  rewrite Hsearch. simpl. by rewrite Hempty.
Qed.

End Facts.
End SearchFacts.

(** * The properties on concrete runs *)

Module OnScenario.
Import Supervisor Scenario.

Example think_tool_echo :
  think_tool {[ "reflection" := "enough sources" ]}
  = Some (think_tool_prefix +:+ "enough sources").
Proof. reflexivity. Qed.

Example think_tool_refuses : think_tool {[ "thought" := "enough sources" ]} = None.
Proof. reflexivity. Qed.

(** C1 on a run: a supervisor that delegates every round is stopped by the
    budget in its sixth round, with the notes of five delegations. *)
Lemma termination_bound_witness :
  ∃ final,
    supervisor_agent today lead_researcher_prompt model_delegating worker_echo
      (λ _, []) 12 state_fresh = Done final ∧
    round_counter final = 6 ∧
    length (notes final) = 5%nat ∧
    round_counter final ≤ max_researcher_iterations.
Proof.
  eexists. split; [vm_compute; reflexivity|].
  split; [reflexivity|]. split; [reflexivity|].
  apply (SupervisorBudget.termination_bound today lead_researcher_prompt
           model_delegating worker_echo (λ _, []) 12 state_fresh).
  - reflexivity.
  - vm_compute; reflexivity.
Defined.

(** C1 without a condition on the state the run is entered with: a run
    entered with the counter at the maximum plays one planning step and
    ends with the counter above the maximum. *)
Lemma termination_bound_counterexample :
  ¬ (∀ today lead_researcher_prompt model worker schedule fuel state final,
       supervisor_agent today lead_researcher_prompt model worker schedule fuel state
       = Done final →
       round_counter final ≤ max_researcher_iterations).
Proof.
  intros Hbound.
  specialize (Hbound today lead_researcher_prompt model_silent worker_echo
                (λ _, []) 2%nat state_budget_used _ eq_refl).
  vm_compute in Hbound. by apply Hbound.
Qed.

(** C2 on the step that follows the delegation of A, B and C. *)
Lemma termination_check_witness :
  ∃ c, supervisor_tools worker_echo reverse_order state_abc = Some c ∧
    (goto c = END ↔
       max_researcher_iterations ≤ round_counter state_abc
       ∨ [call_a; call_b; call_c] = []
       ∨ (∃ tool_call, tool_call ∈ [call_a; call_b; call_c]
                       ∧ tc_name tool_call = "ResearchComplete")
       ∨ execute_tool_calls worker_echo reverse_order [call_a; call_b; call_c] = None) ∧
    (goto c ≠ END → goto c = supervisor_node) ∧
    ([call_a; call_b; call_c] = [] → goto c = END).
Proof.
  exact (SupervisorStep.termination_check worker_echo reverse_order state_abc
           "" [call_a; call_b; call_c] eq_refl).
Defined.

(** C3 on calls issued A, B, C and completed C, B, A: the tool messages
    are appended in the order A, B, C. *)
Lemma delegation_results_in_call_order_witness :
  ∃ c, supervisor_tools worker_echo reverse_order state_abc = Some c ∧
    u_supervisor_messages (update c)
    = Some [ToolMessage "notes on topic A" "ConductResearch" "A";
            ToolMessage "notes on topic B" "ConductResearch" "B";
            ToolMessage "notes on topic C" "ConductResearch" "C"] ∧
    ∃ content calls think_messages results,
      last_message (supervisor_messages state_abc) = Some (AIMessage content calls) ∧
      (∀ order', supervisor_tools worker_echo order' state_abc = Some c) ∧
      supervisor_messages (apply_update state_abc (update c))
        = supervisor_messages state_abc ++ think_messages
            ++ zip_with research_tool_message results (conduct_research_calls calls) ∧
      length think_messages = length (think_tool_calls calls) ∧
      Forall2 (λ tool_call result, delegate worker_echo tool_call = Some result)
              (conduct_research_calls calls) results ∧
      msg_tool_call_id
        <$> zip_with research_tool_message results (conduct_research_calls calls)
        = Some ∘ tc_id <$> conduct_research_calls calls.
Proof.
  eexists. split; [vm_compute; reflexivity|]. split; [reflexivity|].
  apply (SupervisorDelegation.delegation_results_in_call_order worker_echo
           reverse_order state_abc).
  - vm_compute; reflexivity.
  - reflexivity.
Defined.

(** C4 on topic A delegated first next to B, and last after a reflection
    and C: the worker on A is started and answers alike. *)
Lemma worker_isolation_witness :
  ∃ tool_messages1 raw_notes1 tool_messages2 raw_notes2,
    execute_tool_calls worker_echo [1; 0]%nat [call_a; call_b]
    = Some (tool_messages1, raw_notes1) ∧
    execute_tool_calls worker_echo [0; 1]%nat
      [reflect "R" "C first"; call_c; conduct "A2" "topic A"]
    = Some (tool_messages2, raw_notes2) ∧
    researcher_input call_a
    = Some {| in_researcher_messages := [HumanMessage "topic A"];
              in_research_topic := "topic A" |} ∧
    researcher_input (conduct "A2" "topic A") = researcher_input call_a ∧
    msg_content <$> tool_messages1 !! (0 + 0)%nat
    = msg_content <$> tool_messages2 !! (1 + 1)%nat ∧
    raw_notes1 !! 0%nat = raw_notes2 !! 1%nat ∧
    is_Some (raw_notes1 !! 0%nat).
Proof.
  eexists _, _, _, _.
  split; [vm_compute; reflexivity|]. split; [vm_compute; reflexivity|].
  apply (SupervisorDelegation.worker_isolation worker_echo [1; 0]%nat [0; 1]%nat
           [call_a; call_b] [reflect "R" "C first"; call_c; conduct "A2" "topic A"]
           0 1 call_a (conduct "A2" "topic A") "topic A");
    vm_compute; reflexivity.
Defined.

(** C5 on a transcript with one tool message and no brief in the state. *)
Lemma final_notes_witness :
  ∃ c, supervisor_tools worker_echo [] state_finished = Some c ∧
    u_notes (update c) = Some ["notes on topic A"] ∧
    u_research_brief (update c) = Some "" ∧
    research_brief (apply_update state_finished (update c)) = Some "" ∧
    notes (apply_update state_finished (update c)) = ["notes on topic A"] ∧
    supervisor_messages (apply_update state_finished (update c))
    = supervisor_messages state_finished.
Proof.
  eexists. split; [vm_compute; reflexivity|].
  apply (SupervisorStep.final_notes worker_echo [] state_finished).
  - vm_compute; reflexivity.
  - reflexivity.
Defined.

(** C6 on a step whose reflection succeeds and whose worker raises: the
    step ends the run with the notes it had, and the reflection's message
    is not kept. *)
Lemma fault_path_witness :
  execute_tool_calls worker_raising [] [reflect "R" "start with A"; call_a] = None ∧
  ∃ c, supervisor_tools worker_raising [] state_reflect_a = Some c ∧
    goto c = END ∧
    u_notes (update c)
    = Some (Spec.tool_result_contents (supervisor_messages state_reflect_a)) ∧
    u_research_brief (update c) = Some (default "" (research_brief state_reflect_a)) ∧
    u_supervisor_messages (update c) = None ∧
    u_raw_notes (update c) = None ∧
    ∀ schedule fuel,
      schedule fuel = [] →
      run_graph today lead_researcher_prompt model_silent worker_raising schedule
        (S fuel) supervisor_tools_node state_reflect_a
      = Done (apply_update state_reflect_a (update c)).
Proof.
  split; [vm_compute; reflexivity|].
  apply (SupervisorFault.fault_path today lead_researcher_prompt model_silent
           worker_raising [] state_reflect_a "" [reflect "R" "start with A"; call_a]).
  - reflexivity.
  - vm_compute; reflexivity.
Defined.

(** C8 on a decision to proceed. *)
Lemma scoping_binary_routing_witness :
  Scope.scope_research today get_buffer_string template template clarify_proceed
    brief_writer agent_state
  = ([Scope.clarify_with_user_node; Scope.write_research_brief_node],
     Some {| Scope.messages :=
               [HumanMessage "Which of A, B and C is best?";
                AIMessage "Starting the research." []];
             Scope.research_brief := Some "Compare A, B and C";
             Scope.supervisor_messages := [HumanMessage "Compare A, B and C."];
             Scope.raw_notes := [];
             Scope.notes := [];
             Scope.final_report := None |}) ∧
  fst (Scope.scope_research today get_buffer_string template template clarify_proceed
         brief_writer agent_state)
  = [Scope.clarify_with_user_node; Scope.write_research_brief_node].
Proof.
  split; [vm_compute; reflexivity|].
  apply (ScopeFacts.scoping_binary_routing today get_buffer_string template template
           clarify_proceed brief_writer agent_state
           {| Scope.need_clarification := false;
              Scope.question := "";
              Scope.verification := "Starting the research." |});
    reflexivity.
Defined.

(** C9 on a private transcript of four messages. *)
Lemma compress_research_output_witness :
  ∃ u, Researcher.compress_research today (λ date, date) "Summarise." compress_model
         worker_state = Some u ∧
    Researcher.u_raw_notes u
    = Some [Spec.newline_separated
              (Spec.tool_and_assistant_contents
                 (Researcher.researcher_messages worker_state))] ∧
    Researcher.u_compressed_research u = Some "A is documented." ∧
    Researcher.u_researcher_messages u = None.
Proof.
  apply (ResearcherFacts.compress_research_output today (λ date, date) "Summarise."
           compress_model worker_state
           {| ai_content := "A is documented."; ai_tool_calls := [] |}).
  reflexivity.
Defined.

Example raw_notes_of_worker_state :
  Spec.newline_separated
    (Spec.tool_and_assistant_contents (Researcher.researcher_messages worker_state))
  = "searching" +:+ Str.newline +:+ "a page about A" +:+ Str.newline +:+ "A is covered".
Proof. reflexivity. Qed.

(** C10 on a search that finds nothing. *)
Lemma empty_search_fallback_witness :
  Search.tavily_search today template search_nothing summarizer "A" 3 Search.general
  = Some Search.no_results_message ∧
  Search.no_results_message ≠ "".
Proof.
  apply (SearchFacts.empty_search_fallback today template search_nothing summarizer
           "A" 3 Search.general {| Search.results := [] |});
    reflexivity.
Defined.

End OnScenario.

(** ** Search adapter: deduplication, summaries and formatting *)

Module SearchDedup.
Import Search SearchLookup.

(** The body of the loops of [deduplicate_search_results], from a
    dictionary built so far. *)
Local Abbreviation dedup_from kept docs :=
  (foldl (λ unique_results result,
            if dict_contains (url result) unique_results
            then unique_results
            else unique_results ++ [(url result, result)])
         kept docs).

Lemma dict_contains_get {V} (key : string) (d : Dict V) :
  dict_contains key d = true ↔ is_Some (dict_get key d).
Proof.
  unfold dict_contains. rewrite bool_decide_eq_true.
  induction d as [|[k v] d IH]; simpl.
  - split; [by intros ?%elem_of_nil|by intros [? ?]].
  - rewrite elem_of_cons. destruct (decide (k = key)) as [->|Hne].
    + split; [by eauto|by left].
    + rewrite <- IH. split; [intros [?|?]; [congruence|done]|by right].
Qed.

Lemma dict_get_snoc {V} (key k : string) (v : V) (d : Dict V) :
  dict_get key (d ++ [(k, v)])
  = match dict_get key d with
    | Some found => Some found
    | None => if decide (k = key) then Some v else None
    end.
Proof.
  induction d as [|[k' v'] d IH]; simpl; [done|].
  by destruct (decide (k' = key)).
Qed.

Lemma dedup_from_get (source_url : string) docs (kept : Dict SearchResult) :
  dict_get source_url (dedup_from kept docs)
  = match dict_get source_url kept with
    | Some found => Some found
    | None => first_with_url source_url docs
    end.
Proof.
  revert kept. induction docs as [|doc docs IH]; intros kept; simpl.
  - by destruct (dict_get source_url kept).
  - destruct (dict_contains (url doc) kept) eqn:Hcontains.
    + rewrite IH. destruct (dict_get source_url kept) eqn:Hget; [done|].
      destruct (decide (url doc = source_url)) as [Heq|Hne]; [|done].
      apply dict_contains_get in Hcontains. rewrite Heq, Hget in Hcontains.
      by destruct Hcontains.
    + rewrite IH, dict_get_snoc.
      destruct (dict_get source_url kept); [done|].
      by destruct (decide (url doc = source_url)).
Qed.

(** Looking a URL up in the deduplicated results gives the first document
    with that URL, in the order of the responses and of the documents
    within a response; a URL no response holds is not a key. *)
Theorem deduplicate_first_wins (search_results : list SearchResponse) (source_url : string) :
  dict_get source_url (deduplicate_search_results search_results)
  = first_with_url source_url (documents search_results).
Proof.
  unfold deduplicate_search_results, documents. by rewrite dedup_from_get.
Qed.

Lemma dedup_from_keys docs (kept : Dict SearchResult) :
  NoDup kept.*1 →
  Forall (λ entry, entry.1 = url entry.2) kept →
  NoDup (dedup_from kept docs).*1 ∧
  Forall (λ entry, entry.1 = url entry.2) (dedup_from kept docs) ∧
  ∃ added, (dedup_from kept docs).*2 = kept.*2 ++ added ∧ added `sublist_of` docs.
Proof.
  revert kept. induction docs as [|doc docs IH]; intros kept Hnodup Hkeys; simpl.
  - split; [done|]. split; [done|]. exists []. by rewrite app_nil_r.
  - destruct (dict_contains (url doc) kept) eqn:Hcontains.
    + destruct (IH kept Hnodup Hkeys) as (H1 & H2 & added & H3 & H4).
      split; [done|]. split; [done|]. exists added. split; [done|].
      by apply sublist_cons.
    + destruct (IH (kept ++ [(url doc, doc)])) as (H1 & H2 & added & H3 & H4).
      * rewrite fmap_app. apply NoDup_app. split; [done|]. split.
        -- intros k Hin Hin'. apply list_elem_of_singleton in Hin'. subst k.
           unfold dict_contains in Hcontains.
           by apply bool_decide_eq_false in Hcontains.
        -- simpl. apply NoDup_singleton.
      * apply Forall_app. split; [done|]. by apply Forall_singleton.
      * split; [done|]. split; [done|]. exists (doc :: added).
        rewrite H3, fmap_app. simpl. rewrite <- app_assoc. split; [done|].
        by apply sublist_skip.
Qed.

(** No URL is a key twice, every entry is filed under the URL of its own
    document, and the documents kept stand in the order in which the
    search returned them. *)
Theorem deduplicate_entries (search_results : list SearchResponse) :
  NoDup (deduplicate_search_results search_results).*1 ∧
  Forall (λ entry, entry.1 = url entry.2) (deduplicate_search_results search_results) ∧
  (deduplicate_search_results search_results).*2 `sublist_of` documents search_results.
Proof.
  unfold deduplicate_search_results, documents.
  destruct (dedup_from_keys (concat (results <$> search_results)) [])
    as (H1 & H2 & added & H3 & H4); [apply NoDup_nil_2|done|].
  split; [done|]. split; [done|]. by rewrite H3.
Qed.

End SearchDedup.

(** ** Search adapter: summaries, formatting and the tool *)

Module SearchOutput.
Import Search SearchLookup.

Lemma append_cons (c : Ascii.ascii) (s1 s2 : string) :
  String c s1 +:+ s2 = String c (s1 +:+ s2).
Proof. reflexivity. Qed.

Lemma append_assoc (s1 s2 s3 : string) : (s1 +:+ s2) +:+ s3 = s1 +:+ (s2 +:+ s3).
Proof.
  induction s1 as [|c s1 IH]; [done|]. rewrite !append_cons. by rewrite IH.
Qed.

Lemma append_nil_r (s : string) : s +:+ "" = s.
Proof. induction s as [|c s IH]; [done|]. rewrite append_cons. by rewrite IH. Qed.




(** The formatted output of a non-empty dictionary starts with the
    header of the result list. *)
Lemma format_sources_header (sources : list (nat * (string * SummarizedResult)))
    (header : string) :
  ∃ rest,
    foldl (λ formatted_output '(i, (source_url, result)),
             formatted_output +:+ format_source i source_url result)
          header sources
    = header +:+ rest.
Proof.
  revert header. induction sources as [|[i [u r]] sources IH]; intros header; simpl.
  - exists "". by rewrite append_nil_r.
  - destruct (IH (header +:+ format_source i u r)) as [rest ->].
    exists (format_source i u r +:+ rest). apply append_assoc.
Qed.

(** The notice of an empty search is returned for the empty dictionary
    and for no other. *)
Lemma format_search_output_fallback (summarized_results : Dict SummarizedResult) :
  format_search_output summarized_results = no_results_message ↔ summarized_results = [].
Proof.
  split; [|by intros ->].
  destruct summarized_results as [|entry rest]; [done|].
  unfold format_search_output.
  destruct (format_sources_header
              (zip (seq 1 (length (entry :: rest))) (entry :: rest))
              ("검색 결과: " +:+ Str.newline +:+ Str.newline)) as [tail ->].
  intros Heq. cbv [String.append no_results_message] in Heq. discriminate Heq.
Qed.

Section Facts.
Variable today : string.
Variable summarize_webpage_prompt : string → string → string.
Variable tavily_client_search : string → Z → bool → Topic → option SearchResponse.
Variable summarization_model : list Message → option Summary.

Local Abbreviation summarize_webpage_content :=
  (Search.summarize_webpage_content today summarize_webpage_prompt summarization_model).
Local Abbreviation process_search_results :=
  (Search.process_search_results today summarize_webpage_prompt summarization_model).
Local Abbreviation tavily_search :=
  (Search.tavily_search today summarize_webpage_prompt tavily_client_search
     summarization_model).


(** Processing keeps every source under its URL, in the same order and
    with its title, whether or not a summary can be had; a document with
    no raw content, or with empty raw content, keeps its own content. *)
Theorem process_search_results_sources (unique_results : list (string * SearchResult)) :
  (process_search_results unique_results).*1 = unique_results.*1 ∧
  s_title <$> (process_search_results unique_results).*2 = title <$> unique_results.*2 ∧
  ∀ (i : nat) source_url result,
    unique_results !! i = Some (source_url, result) →
    raw_content result = None ∨ raw_content result = Some "" →
    process_search_results unique_results !! i
    = Some (source_url, {| s_title := title result; s_content := content result |}).
Proof.
  unfold Search.process_search_results. split_and!.
  - induction unique_results as [|[u r] d IH]; [done|].
    rewrite !fmap_cons. simpl. f_equal. exact IH.
  - induction unique_results as [|[u r] d IH]; [done|].
    rewrite !fmap_cons. simpl. f_equal. exact IH.
  - intros i u r Hlookup Hraw.
    change (Search.Dict SummarizedResult) with (list (string * SummarizedResult)).
    rewrite list_lookup_fmap, Hlookup. simpl.
    by destruct Hraw as [->| ->].
Qed.

(** When the search client has answered, the tool returns the notice of
    an empty search exactly when the response holds no document. *)
Theorem tavily_search_fallback_only_when_empty query max_results topic response :
  tavily_client_search query max_results true topic = Some response →
  (tavily_search query max_results topic = Some no_results_message
   ↔ results response = []).
Proof.
  intros Hsearch. unfold Search.tavily_search, tavily_search_multiple. simpl.
  rewrite Hsearch. simpl.
  rewrite <- SearchFacts.deduplicate_single_nil. split.
  - intros Heq. injection Heq as Heq.
    apply format_search_output_fallback in Heq.
    unfold Search.process_search_results in Heq. by apply fmap_nil_inv in Heq.
  - by intros ->.
Qed.

End Facts.
End SearchOutput.

(** ** Supervisor: what a step answers and what a run keeps *)

Module SupervisorRun.
Import Supervisor Transcript.

Lemma think_tool_messages_ids calls messages :
  mapM think_tool_message calls = Some messages →
  msg_tool_call_id <$> messages = Some ∘ tc_id <$> calls ∧
  Forall (λ m, msg_type m = TTool) messages.
Proof.
  intros Hmap. apply mapM_Some in Hmap.
  induction Hmap as [|tool_call m calls messages Hm _ [IHids IHtypes]]; [done|].
  unfold think_tool_message in Hm.
  destruct (think_tool (tc_args tool_call)) as [observation|]; simplify_eq/=.
  split; [by f_equal|]. by constructor.
Qed.

Lemma research_tool_messages_types results calls :
  Forall (λ m, msg_type m = TTool) (zip_with research_tool_message results calls).
Proof.
  revert calls. induction results as [|r results IH]; intros [|tc calls]; simpl;
    [apply Forall_nil_2..|].
  apply Forall_cons. split; [done|apply IH].
Qed.

Lemma assistant_messages_app messages1 messages2 :
  assistant_messages (messages1 ++ messages2)
  = (assistant_messages messages1 + assistant_messages messages2)%nat.
Proof.
  unfold assistant_messages, filter_messages. by rewrite filter_app, length_app.
Qed.

Lemma assistant_messages_tool messages :
  Forall (λ m, msg_type m = TTool) messages → assistant_messages messages = 0%nat.
Proof.
  unfold assistant_messages, filter_messages.
  induction 1 as [|m messages Hm _ IH]; [done|].
  rewrite filter_cons. destruct m; simplify_eq/=. exact IH.
Qed.

Section Facts.
Variable today : string.
Variable lead_researcher_prompt : string → Z → Z → string.
Variable supervisor_model_with_tools : list Message → option AIResponse.
Variable researcher_agent : ResearcherInput → option ResearcherResult.

Local Abbreviation supervisor :=
  (Supervisor.supervisor today lead_researcher_prompt supervisor_model_with_tools).
Local Abbreviation supervisor_tools := (Supervisor.supervisor_tools researcher_agent).
Local Abbreviation execute_tool_calls := (Supervisor.execute_tool_calls researcher_agent).
Local Abbreviation run_graph :=
  (Supervisor.run_graph today lead_researcher_prompt supervisor_model_with_tools
     researcher_agent).
Local Abbreviation supervisor_agent :=
  (Supervisor.supervisor_agent today lead_researcher_prompt supervisor_model_with_tools
     researcher_agent).

Lemma execute_tool_calls_types order calls tool_messages all_raw_notes :
  execute_tool_calls order calls = Some (tool_messages, all_raw_notes) →
  Forall (λ m, msg_type m = TTool) tool_messages.
Proof.
  intros Hexec.
  apply SupervisorDelegation.execute_tool_calls_Some in Hexec
    as (think_messages & results & Hthink & _ & -> & _).
  destruct (think_tool_messages_ids _ _ Hthink) as [_ Htypes].
  apply Forall_app. split; [done|apply research_tool_messages_types].
Qed.

(** A step that returns to planning answers the reflection calls and then
    the delegation calls, each once and under its own id, with tool
    messages only, and keeps one raw-note blob per delegation call; a call
    of any other name gets no answer, and the number of workers is the
    number of delegation calls, whatever [max_concurrent_researchers]. *)
Theorem execute_tool_calls_answers order calls tool_messages all_raw_notes :
  execute_tool_calls order calls = Some (tool_messages, all_raw_notes) →
  msg_tool_call_id <$> tool_messages
  = Some ∘ tc_id <$> (think_tool_calls calls ++ conduct_research_calls calls) ∧
  Forall (λ m, msg_type m = TTool) tool_messages ∧
  length all_raw_notes = length (conduct_research_calls calls).
Proof.
  intros Hexec.
  apply SupervisorDelegation.execute_tool_calls_Some in Hexec
    as (think_messages & results & Hthink & Hresults & -> & ->).
  destruct (think_tool_messages_ids _ _ Hthink) as [Hids Htypes].
  apply length_mapM in Hresults.
  split_and!.
  - rewrite !fmap_app, Hids. f_equal.
    by apply SupervisorDelegation.research_tool_message_ids.
  - apply Forall_app. split; [done|apply research_tool_messages_types].
  - by rewrite length_fmap.
Qed.

(** The shapes of what the executing step returns, with the outcome of
    the [try] block. *)
Lemma supervisor_tools_shapes order state c :
  supervisor_tools order state = Some c →
  c = end_command state ∨
  ∃ calls tool_messages all_raw_notes,
    execute_tool_calls order calls = Some (tool_messages, all_raw_notes) ∧
    c = continue_command tool_messages all_raw_notes.
Proof.
  unfold Supervisor.supervisor_tools. intros H.
  destruct (last_message _) as [m|]; simplify_eq/=.
  destruct (tool_calls m) as [calls|]; simplify_eq/=.
  destruct (_ || _ || _); simplify_eq/=; [by left|].
  destruct (Supervisor.execute_tool_calls _ _ _) as [[tm rn]|] eqn:Hexec; simplify_eq/=.
  - right. by exists calls, tm, rn.
  - by left.
Qed.

(** What a command of either node makes of the state: the transcript and
    the raw notes are extended, the counter goes up by the number of
    assistant messages appended, and the notes and the brief are written
    by the terminal command alone. *)
Local Abbreviation effect state c :=
  (supervisor_messages state
     `prefix_of` supervisor_messages (apply_update state (update c)) ∧
   raw_notes state `prefix_of` raw_notes (apply_update state (update c)) ∧
   round_counter (apply_update state (update c)) - round_counter state
   = Z.of_nat (assistant_messages (supervisor_messages (apply_update state (update c))))
     - Z.of_nat (assistant_messages (supervisor_messages state)) ∧
   (goto c ≠ END →
    notes (apply_update state (update c)) = notes state ∧
    research_brief (apply_update state (update c)) = research_brief state) ∧
   (goto c = END →
    supervisor_messages (apply_update state (update c)) = supervisor_messages state ∧
    notes (apply_update state (update c))
    = notes state ++ Spec.tool_result_contents (supervisor_messages state) ∧
    research_brief (apply_update state (update c))
    = Some (default "" (research_brief state)))).

Lemma supervisor_effect state c : supervisor state = Some c → effect state c.
Proof.
  unfold Supervisor.supervisor. intros Hstep.
  destruct (supervisor_model_with_tools _) as [response|]; simplify_eq/=.
  split_and!; try done.
  - by apply prefix_app_r.
  - by apply prefix_app_r.
  - rewrite assistant_messages_app. unfold round_counter. simpl.
    change (assistant_messages [ai_message response]) with 1%nat. lia.
  - intros _. by rewrite app_nil_r.
Qed.

Lemma supervisor_tools_effect order state c :
  supervisor_tools order state = Some c → effect state c.
Proof.
  intros Hstep.
  apply supervisor_tools_shapes in Hstep as [->|(calls & tm & rn & Hexec & ->)]; simpl.
  - rewrite !app_nil_r, SupervisorStep.get_notes_tool_result_contents.
    split_and!; try done. unfold round_counter. simpl. lia.
  - pose proof (execute_tool_calls_types _ _ _ _ Hexec) as Htypes.
    split_and!; try done.
    + by apply prefix_app_r.
    + by apply prefix_app_r.
    + rewrite assistant_messages_app, (assistant_messages_tool _ Htypes).
      unfold round_counter. simpl. lia.
    + intros _. by rewrite app_nil_r.
Qed.

(** A run only appends to the transcript, the raw notes and the notes, and
    never lowers the counter. *)
Theorem run_graph_append_only schedule fuel node state final :
  run_graph schedule fuel node state = Done final →
  supervisor_messages state `prefix_of` supervisor_messages final ∧
  raw_notes state `prefix_of` raw_notes final ∧
  notes state `prefix_of` notes final ∧
  round_counter state ≤ round_counter final.
Proof.
  revert node state. induction fuel as [|fuel IH]; intros node state Hrun.
  - destruct node; simplify_eq/=. done.
  - destruct node; simpl in Hrun; [| |by simplify_eq].
    + destruct (supervisor state) as [c|] eqn:Hc; [|done].
      apply IH in Hrun as (H1 & H2 & H3 & H4).
      destruct (supervisor_effect state c Hc) as (E1 & E2 & E3 & _).
      split_and!.
      * by etrans.
      * by etrans.
      * etrans; [|exact H3]. by apply prefix_app_r.
      * pose proof (SupervisorBudget.supervisor_increments _ _ _ _ _ Hc) as [_ Hinc].
        lia.
    + destruct (supervisor_tools (schedule fuel) state) as [c|] eqn:Hc; [|done].
      apply IH in Hrun as (H1 & H2 & H3 & H4).
      destruct (supervisor_tools_effect _ state c Hc) as (E1 & E2 & E3 & _).
      split_and!.
      * by etrans.
      * by etrans.
      * etrans; [|exact H3]. by apply prefix_app_r.
      * pose proof (SupervisorBudget.supervisor_tools_keeps_counter _ _ _ _ Hc). lia.
Qed.

(** When a run ends, the brief it leaves is the brief it was entered with
    (the empty string if there was none), and its notes have grown by the
    content of the tool messages of the final transcript, in order. *)
Theorem run_graph_final schedule fuel node state final :
  node ≠ END →
  run_graph schedule fuel node state = Done final →
  research_brief final = Some (default "" (research_brief state)) ∧
  notes final = notes state ++ Spec.tool_result_contents (supervisor_messages final).
Proof.
  revert node state. induction fuel as [|fuel IH]; intros node state Hnode Hrun.
  - destruct node; simplify_eq/=.
  - assert (∀ c, effect state c →
              run_graph schedule fuel (goto c) (apply_update state (update c)) = Done final →
              research_brief final = Some (default "" (research_brief state)) ∧
              notes final
              = notes state ++ Spec.tool_result_contents (supervisor_messages final))
      as Hnext.
    { intros c (_ & _ & _ & Hgo & Hstop) Hrest.
      destruct (decide (goto c = END)) as [Hend|Hcontinue].
      - rewrite Hend in Hrest. destruct fuel; simpl in Hrest; simplify_eq.
        + destruct (Hstop Hend) as (-> & -> & ->). done.
        + destruct (Hstop Hend) as (-> & -> & ->). done.
      - apply IH in Hrest as [Hbrief Hnotes]; [|done].
        destruct (Hgo Hcontinue) as [Hn Hb]. by rewrite Hbrief, Hnotes, Hn, Hb. }
    destruct node; simpl in Hrun; [| |done].
    + destruct (supervisor state) as [c|] eqn:Hc; [|done].
      by eapply Hnext; [apply supervisor_effect|].
    + destruct (supervisor_tools (schedule fuel) state) as [c|] eqn:Hc; [|done].
      by eapply Hnext; [eapply supervisor_tools_effect|].
Qed.

(** The counter counts the planning steps: over a run that ends it grows
    by the number of assistant messages the run has appended. *)
Theorem round_counter_counts_planning schedule fuel node state final :
  run_graph schedule fuel node state = Done final →
  round_counter final - round_counter state
  = Z.of_nat (assistant_messages (supervisor_messages final))
    - Z.of_nat (assistant_messages (supervisor_messages state)).
Proof.
  revert node state. induction fuel as [|fuel IH]; intros node state Hrun.
  - destruct node; simplify_eq/=. lia.
  - destruct node; simpl in Hrun; [| |simplify_eq; lia].
    + destruct (supervisor state) as [c|] eqn:Hc; [|done].
      apply IH in Hrun. destruct (supervisor_effect state c Hc) as (_ & _ & E & _). lia.
    + destruct (supervisor_tools (schedule fuel) state) as [c|] eqn:Hc; [|done].
      apply IH in Hrun.
      destruct (supervisor_tools_effect _ state c Hc) as (_ & _ & E & _). lia.
Qed.

(** When the supervisor model answers every call, a run entered at the
    planning step ends, within two steps for each round the budget still
    allows and two more, without raising. *)
Theorem supervisor_agent_ends schedule (n fuel : nat) state :
  (∀ messages, is_Some (supervisor_model_with_tools messages)) →
  max_researcher_iterations - round_counter state ≤ Z.of_nat n →
  (2 * n + 2 ≤ fuel)%nat →
  ∃ final, supervisor_agent schedule fuel state = Done final.
Proof.
  intros Hmodel. unfold Supervisor.supervisor_agent.
  revert fuel state. induction n as [|n IH]; intros fuel state Hbudget Hfuel.
  - destruct fuel as [|[|fuel]]; [lia|lia|]. simpl.
    destruct (supervisor state) as [c|] eqn:Hc.
    2:{ unfold Supervisor.supervisor in Hc.
        destruct (Hmodel (supervisor_prompt today lead_researcher_prompt state)) as [r Hr].
        by rewrite Hr in Hc. }
    destruct (SupervisorBudget.supervisor_increments _ _ _ _ _ Hc) as [Hgoto Hcount].
    destruct (SupervisorBudget.supervisor_appends_response _ _ _ _ _ Hc)
      as (response & _ & Hlast).
    rewrite Hgoto. simpl.
    pose proof (SupervisorStep.supervisor_tools_unfold researcher_agent (schedule fuel)
                  _ _ _ Hlast) as Htools.
    rewrite Htools.
    unfold exceeded_iterations.
    rewrite bool_decide_eq_true_2 by lia. simpl.
    destruct fuel; simpl; eauto.
  - destruct fuel as [|[|fuel]]; [lia|lia|]. simpl.
    destruct (supervisor state) as [c|] eqn:Hc.
    2:{ unfold Supervisor.supervisor in Hc.
        destruct (Hmodel (supervisor_prompt today lead_researcher_prompt state)) as [r Hr].
        by rewrite Hr in Hc. }
    destruct (SupervisorBudget.supervisor_increments _ _ _ _ _ Hc) as [Hgoto Hcount].
    destruct (SupervisorBudget.supervisor_appends_response _ _ _ _ _ Hc)
      as (response & _ & Hlast).
    rewrite Hgoto. simpl.
    destruct (supervisor_tools (schedule fuel) (apply_update state (update c)))
      as [c'|] eqn:Hc'.
    2:{ rewrite (SupervisorStep.supervisor_tools_unfold researcher_agent (schedule fuel)
                   _ _ _ Hlast) in Hc'. done. }
    pose proof (SupervisorBudget.supervisor_tools_keeps_counter _ _ _ _ Hc') as Hkeep.
    destruct (SupervisorBudget.supervisor_tools_cases _ _ _ _ Hc')
      as [->|(He & tm & rn & ->)].
    + destruct fuel; simpl; eauto.
    + apply IH; [|lia]. simpl in Hkeep |- *. lia.
Qed.

End Facts.
End SupervisorRun.

(** ** Worker: what the acting step answers and what a run hands back *)

Module ResearcherRun.
Import Researcher.

Section Facts.
Variable today : string.
Variable research_agent_prompt : string.
Variable compress_research_system_prompt : string → string.
Variable compress_research_human_message : string.
Variable model_with_tools : list Message → option AIResponse.
Variable compress_model : list Message → option AIResponse.
Variable tavily_search : string → Z → Search.Topic → option string.

Local Abbreviation tools_by_name := (Researcher.tools_by_name tavily_search).
Local Abbreviation tool_node := (Researcher.tool_node tavily_search).
Local Abbreviation step :=
  (Researcher.step today research_agent_prompt compress_research_system_prompt
     compress_research_human_message model_with_tools compress_model tavily_search).
Local Abbreviation run_graph :=
  (Researcher.run_graph today research_agent_prompt compress_research_system_prompt
     compress_research_human_message model_with_tools compress_model tavily_search).
Local Abbreviation researcher_agent :=
  (Researcher.researcher_agent today research_agent_prompt compress_research_system_prompt
     compress_research_human_message model_with_tools compress_model tavily_search).

Lemma tools_by_name_known name tool :
  tools_by_name name = Some tool → name = "tavily_search" ∨ name = "think_tool".
Proof.
  unfold Researcher.tools_by_name. intros H.
  destruct (decide (name = "tavily_search")); [by left|].
  destruct (decide (name = "think_tool")); [by right|done].
Qed.

Lemma tool_outputs_ids (observations : list string) (calls : list ToolCall) :
  length observations = length calls →
  msg_tool_call_id
    <$> zip_with (λ observation tool_call,
                    ToolMessage observation (tc_name tool_call) (tc_id tool_call))
                 observations calls
  = Some ∘ tc_id <$> calls ∧
  Forall (λ m, msg_type m = TTool)
         (zip_with (λ observation tool_call,
                      ToolMessage observation (tc_name tool_call) (tc_id tool_call))
                   observations calls).
Proof.
  revert calls. induction observations as [|o observations IH]; intros [|tc calls] Hlen;
    simplify_eq/=; [done|].
  destruct (IH calls) as [Hids Htypes]; [done|].
  split; [by f_equal|]. by apply Forall_cons.
Qed.

(** When the acting step returns, the last message was an assistant
    message, every tool call of it named one of the two tools, and the
    step appends one tool message per call, in call order and under the
    id of the call; a call of any other name makes the step raise. *)
Theorem tool_node_answers state u :
  tool_node state = Some u →
  ∃ content calls messages,
    last_message (researcher_messages state) = Some (AIMessage content calls) ∧
    u_researcher_messages u = Some messages ∧
    msg_tool_call_id <$> messages = Some ∘ tc_id <$> calls ∧
    Forall (λ m, msg_type m = TTool) messages ∧
    Forall (λ tool_call, tc_name tool_call = "tavily_search"
                         ∨ tc_name tool_call = "think_tool") calls.
Proof.
  unfold Researcher.tool_node. intros Hnode.
  destruct (last_message _) as [[| |content calls|]|] eqn:Hlast; simplify_eq/=.
  destruct (mapM _ calls) as [observations|] eqn:Hobs; simplify_eq/=.
  exists content, calls. eexists. split; [done|]. split; [done|].
  pose proof (length_mapM _ _ _ Hobs) as Hlen.
  destruct (tool_outputs_ids observations calls) as [Hids Htypes]; [done|].
  split; [done|]. split; [done|].
  apply mapM_Some in Hobs. clear Hlen Hids Htypes Hlast.
  induction Hobs as [|tc o calls observations Ho _ IH]; [done|].
  apply Forall_cons. split; [|done].
  destruct (tools_by_name (tc_name tc)) as [tool|] eqn:Htool; simplify_eq/=.
  by eapply tools_by_name_known.
Qed.




End Facts.
End ResearcherRun.

(** ** Supervisor and worker together *)

Module Delegation.
Import Supervisor.

Section Facts.
Variable today : string.
Variable research_agent_prompt : string.
Variable compress_research_system_prompt : string → string.
Variable compress_research_human_message : string.
Variable model_with_tools : list Message → option AIResponse.
Variable compress_model : list Message → option AIResponse.
Variable tavily_search : string → Z → Search.Topic → option string.

Local Abbreviation researcher_agent :=
  (Researcher.researcher_agent today research_agent_prompt compress_research_system_prompt
     compress_research_human_message model_with_tools compress_model tavily_search).


End Facts.
End Delegation.

(** ** Worker with MCP tools: the tool table *)

Module ResearcherMCPFacts.
Import ResearcherMCP.

Lemma tools_by_name_snoc (tools : list Tool) (tool : Tool) :
  tools_by_name (tools ++ [tool]) = <[tool_name tool := tool]> (tools_by_name tools).
Proof. unfold tools_by_name. by rewrite foldl_app. Qed.

(** Looking a name up in the tool table gives the last tool of that name
    in the list the table was built from. *)
Theorem tools_by_name_last_wins (tools : list Tool) (name : string) :
  tools_by_name tools !! name = last (filter (λ tool, tool_name tool = name) tools).
Proof.
  induction tools as [|tool tools IH] using rev_ind; [done|].
  rewrite tools_by_name_snoc, filter_app, filter_cons, filter_nil.
  destruct (decide (tool_name tool = name)) as [<-|Hne].
  - by rewrite lookup_insert_eq, last_snoc.
  - by rewrite lookup_insert_ne, app_nil_r.
Qed.

Lemma think_tool_not_shadowed (server_tools : list Tool) :
  tools_by_name (server_tools ++ [think_tool_tool]) !! "think_tool" = Some think_tool_tool.
Proof. rewrite tools_by_name_snoc. apply lookup_insert_eq. Qed.

(** Whatever tools the server offers, also one named [think_tool], the
    acting step answers reflection calls with the local reflection tool:
    one acknowledgement per call, or the exception of a call without a
    [reflection] argument. *)
Theorem tool_node_reflection (server_tools : list Tool) state content calls :
  last_message (Researcher.researcher_messages state) = Some (AIMessage content calls) →
  Forall (λ tool_call, tc_name tool_call = "think_tool") calls →
  tool_node (Some server_tools) state
  = (observations ← mapM (λ tool_call, think_tool (tc_args tool_call)) calls;
     Some (Researcher.messages_update (tool_outputs observations calls))).
Proof.
  intros Hlast Hnames. unfold tool_node. rewrite Hlast. simpl.
  f_equal. apply Forall_mapM_ext.
  eapply Forall_impl; [exact Hnames|]. intros tool_call Hname. simpl in Hname.
  by rewrite Hname, think_tool_not_shadowed.
Qed.

End ResearcherMCPFacts.

(** ** Scoping stage: what it leaves alone *)

Module ScopeFrame.
Import Scope.

Section Facts.
Variable today : string.
Variable get_buffer_string : list Message → string.
Variable clarify_with_user_instructions : string → string → string.
Variable transform_messages_into_research_topic_prompt : string → string → string.
Variable clarify_model : list Message → option ClarifyWithUser.
Variable brief_model : list Message → option ResearchQuestion.

Local Abbreviation scope_research :=
  (Scope.scope_research today get_buffer_string clarify_with_user_instructions
     transform_messages_into_research_topic_prompt clarify_model brief_model).

(** Whatever the two models answer, a scoping run that ends has appended
    exactly one assistant message, without tool calls, to the user's
    transcript, has left the notes, the raw notes and the final report as
    they were, and has either left the brief and the supervisor's
    transcript alone too or stored a brief and appended it, with a full
    stop, to the supervisor's transcript; and the brief-generation node
    has run exactly in the second case. *)
Theorem scope_research_frame state nodes final :
  scope_research state = (nodes, Some final) →
  (∃ text, messages final = messages state ++ [AIMessage text []]) ∧
  raw_notes final = raw_notes state ∧
  notes final = notes state ∧
  final_report final = final_report state ∧
  ((nodes = [clarify_with_user_node] ∧
    research_brief final = research_brief state ∧
    supervisor_messages final = supervisor_messages state)
   ∨ (nodes = [clarify_with_user_node; write_research_brief_node] ∧
      ∃ brief,
        research_brief final = Some brief ∧
        supervisor_messages final
        = supervisor_messages state ++ [HumanMessage (brief +:+ ".")])).
Proof.
  unfold Scope.scope_research, Scope.clarify_with_user. intros Hrun.
  destruct (clarify_model _) as [response|]; simplify_eq/=.
  destruct (need_clarification response); simplify_eq/=.
  - rewrite app_nil_r. split_and!; [by eexists|done|done|done|]. by left.
  - unfold Scope.write_research_brief in *. simpl in *.
    destruct (brief_model _) as [brief|]; simplify_eq/=.
    rewrite !app_nil_r. split_and!; [by eexists|done|done|done|].
    right. split; [done|]. by eexists.
Qed.

End Facts.
End ScopeFrame.

(** * Further properties on concrete inputs *)

Module OnCases.
Import Supervisor Scenario Cases.

Example deduplicate_responses :
  Search.deduplicate_search_results responses
  = [("u1", doc "u1" "first" "one"); ("u2", doc "u2" "second" "two");
     ("u3", doc "u3" "third" "four")].
Proof. reflexivity. Qed.


(** A search with one document does not return the notice. *)
Lemma tavily_search_fallback_only_when_empty_witness :
  (Search.tavily_search today template search_one summarizer "A" 3 Search.general
   = Some Search.no_results_message
   ↔ [doc "u1" "first" "one"] = []) ∧
  Search.tavily_search today template search_one summarizer "A" 3 Search.general
  = Some (Search.format_search_output
            [("u1", {| Search.s_title := "first"; Search.s_content := "one" |})]).
Proof.
  split; [|reflexivity].
  apply (SearchOutput.tavily_search_fallback_only_when_empty today template search_one
           summarizer "A" 3 Search.general
           {| Search.results := [doc "u1" "first" "one"] |}).
  reflexivity.
Defined.

(** Four workers are started although the ceiling is three, and the call
    of another name is not answered. *)
Lemma execute_tool_calls_answers_witness :
  ∃ tool_messages all_raw_notes,
    execute_tool_calls worker_echo [] calls_mixed = Some (tool_messages, all_raw_notes) ∧
    msg_tool_call_id <$> tool_messages
    = [Some "R"; Some "A"; Some "B"; Some "C"; Some "D"] ∧
    length all_raw_notes = 4%nat ∧
    (msg_tool_call_id <$> tool_messages
     = Some ∘ tc_id <$> (think_tool_calls calls_mixed ++ conduct_research_calls calls_mixed) ∧
     Forall (λ m, msg_type m = TTool) tool_messages ∧
     length all_raw_notes = length (conduct_research_calls calls_mixed)).
Proof.
  eexists _, _. split; [vm_compute; reflexivity|].
  split; [reflexivity|]. split; [reflexivity|].
  apply (SupervisorRun.execute_tool_calls_answers worker_echo [] calls_mixed).
  vm_compute; reflexivity.
Defined.

Lemma run_graph_append_only_witness :
  ∃ final,
    supervisor_agent today lead_researcher_prompt model_delegating worker_echo
      (λ _, []) 12 state_fresh = Done final ∧
    length (supervisor_messages final) = 12%nat ∧
    length (raw_notes final) = 5%nat ∧
    (supervisor_messages state_fresh `prefix_of` supervisor_messages final ∧
     raw_notes state_fresh `prefix_of` raw_notes final ∧
     notes state_fresh `prefix_of` notes final ∧
     round_counter state_fresh ≤ round_counter final).
Proof.
  eexists. split; [vm_compute; reflexivity|].
  split; [reflexivity|]. split; [reflexivity|].
  apply (SupervisorRun.run_graph_append_only today lead_researcher_prompt
           model_delegating worker_echo (λ _, []) 12 supervisor_node state_fresh).
  vm_compute; reflexivity.
Defined.

Lemma run_graph_final_witness :
  ∃ final,
    supervisor_agent today lead_researcher_prompt model_delegating worker_echo
      (λ _, []) 12 state_fresh = Done final ∧
    research_brief final = Some (default "" (research_brief state_fresh)) ∧
    notes final = notes state_fresh ++ Spec.tool_result_contents (supervisor_messages final).
Proof.
  eexists. split; [vm_compute; reflexivity|].
  apply (SupervisorRun.run_graph_final today lead_researcher_prompt
           model_delegating worker_echo (λ _, []) 12 supervisor_node state_fresh).
  - discriminate.
  - vm_compute; reflexivity.
Defined.

Lemma round_counter_counts_planning_witness :
  ∃ final,
    supervisor_agent today lead_researcher_prompt model_delegating worker_echo
      (λ _, []) 12 state_fresh = Done final ∧
    Transcript.assistant_messages (supervisor_messages final) = 6%nat ∧
    round_counter final - round_counter state_fresh
    = Z.of_nat (Transcript.assistant_messages (supervisor_messages final))
      - Z.of_nat (Transcript.assistant_messages (supervisor_messages state_fresh)).
Proof.
  eexists. split; [vm_compute; reflexivity|]. split; [reflexivity|].
  apply (SupervisorRun.round_counter_counts_planning today lead_researcher_prompt
           model_delegating worker_echo (λ _, []) 12 supervisor_node state_fresh).
  vm_compute; reflexivity.
Defined.

Lemma supervisor_agent_ends_witness :
  ∃ final,
    supervisor_agent today lead_researcher_prompt model_delegating worker_raising
      (λ _, []) 14 state_fresh = Done final.
Proof.
  apply (SupervisorRun.supervisor_agent_ends today lead_researcher_prompt
           model_delegating worker_raising (λ _, []) 6 14 state_fresh).
  - intros messages. by eexists.
  - vm_compute. discriminate.
  - vm_compute. lia.
Defined.

Lemma tool_node_answers_witness :
  ∃ u, Researcher.tool_node search_echo acting_state = Some u ∧
    Researcher.u_researcher_messages u
    = Some [ToolMessage "results for A" "tavily_search" "S";
            ToolMessage (think_tool_prefix +:+ "check the page") "think_tool" "R"] ∧
    ∃ content calls messages,
      last_message (Researcher.researcher_messages acting_state)
      = Some (AIMessage content calls) ∧
      Researcher.u_researcher_messages u = Some messages ∧
      msg_tool_call_id <$> messages = Some ∘ tc_id <$> calls ∧
      Forall (λ m, msg_type m = TTool) messages ∧
      Forall (λ tool_call, tc_name tool_call = "tavily_search"
                           ∨ tc_name tool_call = "think_tool") calls.
Proof.
  eexists. split; [vm_compute; reflexivity|]. split; [reflexivity|].
  apply (ResearcherRun.tool_node_answers search_echo acting_state).
  vm_compute; reflexivity.
Defined.



Example tools_by_name_server_think_tool :
  ResearcherMCP.tools_by_name (server_tools ++ [ResearcherMCP.think_tool_tool])
    !! "think_tool"
  = Some ResearcherMCP.think_tool_tool.
Proof. by rewrite ResearcherMCPFacts.tools_by_name_last_wins. Qed.

Lemma tool_node_reflection_witness :
  ResearcherMCP.tool_node (Some server_tools) reflecting_state
  = Some (Researcher.messages_update
            [ToolMessage (think_tool_prefix +:+ "read the file") "think_tool" "R1";
             ToolMessage (think_tool_prefix +:+ "enough") "think_tool" "R2"]).
Proof.
  rewrite (ResearcherMCPFacts.tool_node_reflection server_tools reflecting_state ""
             [reflect "R1" "read the file"; reflect "R2" "enough"]).
  - vm_compute; reflexivity.
  - reflexivity.
  - repeat constructor.
Defined.

Lemma scope_research_frame_witness :
  ∃ nodes final,
    Scope.scope_research today get_buffer_string template template clarify_proceed
      brief_writer agent_state = (nodes, Some final) ∧
    (∃ text, Scope.messages final = Scope.messages agent_state ++ [AIMessage text []]) ∧
    Scope.raw_notes final = Scope.raw_notes agent_state ∧
    Scope.notes final = Scope.notes agent_state ∧
    Scope.final_report final = Scope.final_report agent_state ∧
    ((nodes = [Scope.clarify_with_user_node] ∧
      Scope.research_brief final = Scope.research_brief agent_state ∧
      Scope.supervisor_messages final = Scope.supervisor_messages agent_state)
     ∨ (nodes = [Scope.clarify_with_user_node; Scope.write_research_brief_node] ∧
        ∃ brief,
          Scope.research_brief final = Some brief ∧
          Scope.supervisor_messages final
          = Scope.supervisor_messages agent_state ++ [HumanMessage (brief +:+ ".")])).
Proof.
  eexists _, _. split; [vm_compute; reflexivity|].
  apply (ScopeFrame.scope_research_frame today get_buffer_string template template
           clarify_proceed brief_writer agent_state).
  vm_compute; reflexivity.
Defined.

End OnCases.
